(** * Broker applications controller: list and create

    A shallow embedding of
    [src/backend/src/api/brokers/applications/list-applications/list-applications.controller.ts]
    (class [BrokerApplicationsListController], methods [find] and [post]).

    The controller is asynchronous code over a Sequelize repository.  It is
    embedded in a small state-and-exception monad over a [World] that holds
    the application table, the console and the outcome of the pending
    storage calls.  JavaScript objects used as Sequelize option bags are
    finite maps keyed by property name. *)

From Stdlib Require Import ZArith String.
From Stdlib Require Import Floats.SpecFloat.
From stdpp Require Import gmap strings list fin_maps option.

Local Open Scope Z_scope.
Local Open Scope string_scope.

(** ** JavaScript numbers

    A TypeScript [number] is an IEEE 754 binary64 value.  [spec_float] is the
    Standard Library's inductive description of such values; its comparison
    [SFcompare] is the IEEE one: a NaN is unordered with everything, itself
    included, and the two zeros are equal. *)
Module Js.

Definition number : Type := spec_float.

Definition NaN : number := S754_nan.

(** The double nearest to an integer literal. *)
Definition of_Z (z : Z) : number := binary_normalize 53 1024 z 0 false.

(** [a === b] and [a !== b] on two numbers. *)
Definition strict_eq (a b : number) : bool := SFeqb a b.
Definition strict_neq (a b : number) : bool := negb (SFeqb a b).

(** [a < b] and [a > b] on two numbers. *)
Definition lt (a b : number) : bool := SFltb a b.
Definition gt (a b : number) : bool := SFltb b a.

(** Neither operand is a NaN, so that exactly one of [<], [===], [>]
    holds. *)
Definition comparable (a b : number) : Prop := is_Some (SFcompare a b).

(** ToBoolean on an optional boolean property: [undefined] and [false] are
    falsy. *)
Definition truthy_flag (o : option bool) : bool :=
  match o with
  | Some b => b
  | None => false
  end.

(** [a + b] and [a / b] on two numbers; [0 / 0] is a NaN. *)
Definition add (a b : number) : number := SFadd 53 1024 a b.
Definition div (a b : number) : number := SFdiv 53 1024 a b.

End Js.

#[global] Instance number_eq_dec : EqDecision Js.number.
Proof. unfold Js.number. solve_decision. Defined.

(** ** Enumerations

    [src/enums/application-status.enum] and [src/enums/task-status.enum] are
    imported by the controller; it names the members [Submitted],
    [Completed] and [Pending].  The remaining members are kept open. *)
Inductive ApplicationStatus : Type :=
| Submitted
| Approved
| Rejected
| OtherApplicationStatus (name : string).

Inductive TaskStatus : Type :=
| Pending
| Completed
| OtherTaskStatus (name : string).

#[global] Instance ApplicationStatus_eq_dec : EqDecision ApplicationStatus.
Proof. solve_decision. Defined.

#[global] Instance TaskStatus_eq_dec : EqDecision TaskStatus.
Proof. solve_decision. Defined.

Inductive HttpStatus : Type :=
| OK
| BAD_REQUEST
| INTERNAL_SERVER_ERROR.

(** Milliseconds since the epoch. *)
Definition Date : Type := Z.

(** ** Column values and Sequelize conditions *)
Inductive Value : Type :=
| VId (n : Z)
| VNumber (x : Js.number)
| VDate (t : Date)
| VApplicationStatus (s : ApplicationStatus)
| VTaskStatus (s : TaskStatus)
| VString (s : string).

#[global] Instance Value_eq_dec : EqDecision Value.
Proof. solve_decision. Defined.

(** The right-hand side of one property of a [where] object: a plain value
    ([column: v]) or an operator object ([column: { [Op.in]: vs }], ...). *)
Inductive Cond : Type :=
| Equals (v : Value)
| OpIn (vs : list Value)
| OpGte (v : Value)
| OpLte (v : Value)
| OpBetween (lo hi : Value).

#[global] Instance Cond_eq_dec : EqDecision Cond.
Proof. solve_decision. Defined.

(** A [where] object, and a table row as its attribute bag. *)
Abbreviation WhereOptions := (gmap string Cond).
Abbreviation Attributes := (gmap string Value).

(** Ordering of column values, as the engine compares them: defined on two
    dates or two identifiers. *)
Definition value_leb (a b : Value) : bool :=
  match a, b with
  | VDate x, VDate y => (x <=? y)%Z
  | VId x, VId y => (x <=? y)%Z
  | _, _ => false
  end.

(** Whether a column (absent columns are [None]) satisfies a condition. *)
Definition cond_holds (c : Cond) (column : option Value) : bool :=
  match column with
  | None => false
  | Some x =>
      match c with
      | Equals v => bool_decide (x = v)
      | OpIn vs => bool_decide (x ∈ vs)
      | OpGte v => value_leb v x
      | OpLte v => value_leb x v
      | OpBetween lo hi => value_leb lo x && value_leb x hi
      end
  end.

(** A row satisfies a [where] object when every property's condition holds:
    the properties are conjoined. *)
Definition where_matches (w : WhereOptions) (row : Attributes) : bool :=
  bool_decide (map_Forall (λ k c, cond_holds c (row !! k) = true) w).

(** ** Entities

    Modelled from the spec: the [Application] and [Task] entities of
    [src/models], which are outside the controller file.  An application
    carries its columns ([brokerId], [status], [loanAmount], [createdAt], ...)
    and zero or one related task; a task carries its columns ([status],
    [assignedToBrokerId], ...). *)
Record Task : Type := mkTask { task_attributes : Attributes }.

Record Application : Type := mkApplication {
  attributes : Attributes;
  task : option Task
}.

Definition owned_by (b : Z) (a : Application) : Prop :=
  attributes a !! "brokerId" = Some (VId b).

Definition assigned_to (b : Z) (t : Task) : Prop :=
  task_attributes t !! "assignedToBrokerId" = Some (VId b).

(** ** Sequelize find options *)
Inductive Model : Type :=
| ApplicationModel
| TaskModel.

Record IncludeOptions : Type := mkInclude {
  model : Model;
  where_ : option WhereOptions;
  required : option bool
}.

Record FindOptions : Type := mkFindOptions {
  find_where : WhereOptions;
  include : list IncludeOptions
}.

(** Sequelize's default: an include is an inner join ([required]) exactly
    when it has a [where], unless [required] is given. *)
Definition include_required (inc : IncludeOptions) : bool :=
  match required inc with
  | Some b => b
  | None => bool_decide (is_Some (where_ inc))
  end.

Definition include_matches (inc : IncludeOptions) (t : Task) : bool :=
  match where_ inc with
  | Some w => where_matches w (task_attributes t)
  | None => true
  end.

(** Joining one application with an include: the related task is kept when
    it satisfies the include's [where]; a required include drops the
    application when no task is left, an optional one returns it with the
    task field empty. *)
Definition join_include (inc : IncludeOptions) (a : Application)
  : option Application :=
  let related :=
    match task a with
    | Some t => if include_matches inc t then Some t else None
    | None => None
    end in
  match related with
  | None =>
      if include_required inc then None
      else Some (mkApplication (attributes a) None)
  | Some t => Some (mkApplication (attributes a) (Some t))
  end.

Definition select_row (opts : FindOptions) (a : Application)
  : option Application :=
  if where_matches (find_where opts) (attributes a)
  then foldl (λ acc inc, acc ≫= join_include inc) (Some a) (include opts)
  else None.

(** The rows [findAll] returns for a table. *)
Definition query_rows (opts : FindOptions) (table : list Application)
  : list Application :=
  omap (select_row opts) table.

(** ** Request and response shapes

    The DTO classes of [list-applications.dto] and [BrokerDto] are imported
    by the controller; their fields are the ones it reads and writes. *)
Record BrokerDto : Type := mkBroker { id : Z }.

Module ListRequest.
Record BrokerApplicationsListRequestDto : Type := mk {
  minimumDate : option Date;
  maximumDate : option Date;
  completed : option bool;
  status : option (list ApplicationStatus)
}.
End ListRequest.
Export ListRequest (BrokerApplicationsListRequestDto).

Module ListResponse.
Record BrokerApplicationsListResponseDto : Type := mk {
  success : bool;
  applications : list Application
}.
End ListResponse.
Export ListResponse (BrokerApplicationsListResponseDto).

(** The submitted payload: its loan amount and its remaining properties. *)
Module Payload.
Record ApplicationDto : Type := mk {
  loanAmount : Js.number;
  fields : Attributes
}.

(** The payload as the object that [{ ...body }] spreads. *)
Definition object (body : ApplicationDto) : Attributes :=
  <["loanAmount" := VNumber (loanAmount body)]> (fields body).
End Payload.
Export Payload (ApplicationDto).

Module PostResponse.
Record BrokerApplicationPostResponseDto : Type := mk {
  success : bool;
  loanAmount : option Js.number;
  message : string
}.
End PostResponse.
Export PostResponse (BrokerApplicationPostResponseDto).

(** ** Exceptions *)
Inductive Exception : Type :=
| InvalidRange (message : string)
| HttpException (response : string) (status : HttpStatus)
| StorageFailure (message : string).

(** [error.message] *)
Definition exception_message (e : Exception) : string :=
  match e with
  | InvalidRange m => m
  | HttpException m _ => m
  | StorageFailure m => m
  end.

(** ** The world the controller runs in

    [table] is the applications table with each row's related task,
    [console] the lines written by [console.log], and [faults] the fate of
    the storage calls still to come, oldest first: [Some m] makes the next
    call reject with message [m]; when the list is exhausted every call
    succeeds. *)
Record World : Type := mkWorld {
  table : list Application;
  console : list WhereOptions;
  faults : list (option string)
}.

Inductive Outcome (A : Type) : Type :=
| Returned (a : A)
| Threw (e : Exception).
Arguments Returned {A} a.
Arguments Threw {A} e.

Definition M (A : Type) : Type := World → Outcome A * World.

#[global] Instance M_ret : MRet M := λ A a w, (Returned a, w).

#[global] Instance M_bind : MBind M := λ A B f m w,
  match m w with
  | (Returned a, w') => f a w'
  | (Threw e, w') => (Threw e, w')
  end.

Definition throw {A : Type} (e : Exception) : M A := λ w, (Threw e, w).

(** [try { body } catch (error) { handler }] *)
Definition try_catch {A : Type} (body : M A) (handler : Exception → M A)
  : M A := λ w,
  match body w with
  | (Returned a, w') => (Returned a, w')
  | (Threw e, w') => handler e w'
  end.

(** [console.log(o)]: the console gains a line; [o] is left as it is. *)
Definition console_log (o : WhereOptions) : M unit := λ w,
  (Returned (), mkWorld (table w) (console w ++ [o])%list (faults w)).

(** One awaited call to the repository: it rejects when the world says so,
    otherwise it reads and possibly updates the table. *)
Definition storage_call {A : Type}
  (op : list Application → A * list Application) : M A := λ w,
  match faults w with
  | Some m :: rest =>
      (Threw (StorageFailure m), mkWorld (table w) (console w) rest)
  | None :: rest =>
      let (a, t) := op (table w) in (Returned a, mkWorld t (console w) rest)
  | [] =>
      let (a, t) := op (table w) in (Returned a, mkWorld t (console w) [])
  end.

(** [applicationEntity.findAll(options)] *)
Definition findAll (opts : FindOptions) : M (list Application) :=
  storage_call (λ t, (query_rows opts t, t)).

(** [applicationEntity.create(values)]: a new row without a task. *)
Definition create (values : Attributes) : M Application :=
  storage_call (λ t,
    let row := mkApplication values None in (row, (t ++ [row])%list)).

Section Controller.

(** The message carried by the error that [createDateFilter] throws, and
    the aggregate behind [Application.getAverageLoanAmount]; both live
    outside the controller. *)
Variable invalid_range_message : string.
Variable average_of : list Application → Js.number.

(** [applicationEntity.getAverageLoanAmount()] *)
Definition getAverageLoanAmount : M Js.number :=
  storage_call (λ t, (average_of t, t)).

(** Modelled from the spec: [createDateFilter] of
    [src/common/query-filters], which is outside the controller file.
    With both bounds the column must lie in the closed interval, with one
    bound it must not be before the minimum or after the maximum, with none
    the filter is empty; a minimum after the maximum fails with
    [InvalidRange]. *)
Definition createDateFilter (field : string)
  (minimumDate maximumDate : option Date) : M WhereOptions :=
  match minimumDate, maximumDate with
  | Some lo, Some hi =>
      if (hi <? lo)%Z then throw (InvalidRange invalid_range_message)
      else mret {[ field := OpBetween (VDate lo) (VDate hi) ]}
  | Some lo, None => mret {[ field := OpGte (VDate lo) ]}
  | None, Some hi => mret {[ field := OpLte (VDate hi) ]}
  | None, None => mret ∅
  end.

(** [{ brokerId: id, ...dateFilter }]: the properties spread last win. *)
Definition spread_over (base more : WhereOptions) : WhereOptions :=
  more ∪ base.

(** Lines 87-119 of [find]: the options handed to [findAll]. *)
Definition find_options (user : BrokerDto)
  (query : BrokerApplicationsListRequestDto) : M FindOptions :=
  dateFilter ←
    try_catch
      (createDateFilter "createdAt"
         (ListRequest.minimumDate query) (ListRequest.maximumDate query))
      (λ error, throw (HttpException (exception_message error) BAD_REQUEST));
  let relatedData : list IncludeOptions := [] in
  let relatedData :=
    if Js.truthy_flag (ListRequest.completed query)
    then (relatedData ++
          [ mkInclude TaskModel
              (Some (<["assignedToBrokerId" := Equals (VId (id user))]>
                       {[ "status" := Equals (VTaskStatus Completed) ]}))
              None ])%list
    else (relatedData ++
          [ mkInclude TaskModel
              (Some (<["assignedToBrokerId" := Equals (VId (id user))]>
                       {[ "status" := Equals (VTaskStatus Pending) ]}))
              (Some false) ])%list in
  let whereOptions :=
    spread_over {[ "brokerId" := Equals (VId (id user)) ]} dateFilter in
  (* [if (query.status)]: an array is truthy even when it is empty; only an
     omitted parameter skips the branch. *)
  whereOptions ←
    match ListRequest.status query with
    | Some statuses =>
        let whereOptions :=
          <["status" := OpIn (VApplicationStatus <$> statuses)]>
            whereOptions in
        console_log whereOptions ;; mret whereOptions
    | None => mret whereOptions
    end;
  mret (mkFindOptions whereOptions relatedData).

(** [find]: the list operation. *)
Definition find (user : BrokerDto)
  (query : BrokerApplicationsListRequestDto)
  : M BrokerApplicationsListResponseDto :=
  opts ← find_options user query;
  applications ← findAll opts;
  mret (ListResponse.mk true applications).

(** Lines 150-152 of [post]: the average is read, the echo is chosen and
    the record is written. *)
Definition post_persist (user : BrokerDto) (body : ApplicationDto)
  : M (Js.number * option Js.number) :=
  avgLoanAmount ← getAverageLoanAmount;
  let loanAmount :=
    if Js.strict_neq (Payload.loanAmount body) avgLoanAmount
    then Some (Payload.loanAmount body) else None in
  _ ← create (<["brokerId" := VId (id user)]>
               (<["status" := VApplicationStatus Submitted]>
                  (Payload.object body)));
  mret (avgLoanAmount, loanAmount).

(** Lines 154-168 of [post]: the classification and the response. *)
Definition post_respond (body : ApplicationDto)
  (avgLoanAmount : Js.number) (loanAmount : option Js.number)
  : M BrokerApplicationPostResponseDto :=
  let loanAmountStatus :=
    if Js.gt (Payload.loanAmount body) avgLoanAmount then "above"
    else if Js.lt (Payload.loanAmount body) avgLoanAmount then "below"
    else "at" in
  mret (PostResponse.mk true loanAmount
          ("Loan amount is " ++ loanAmountStatus ++ " average")).

(** [post]: the create operation. *)
Definition post (user : BrokerDto) (body : ApplicationDto)
  : M BrokerApplicationPostResponseDto :=
  '(avgLoanAmount, loanAmount) ← post_persist user body;
  post_respond body avgLoanAmount loanAmount.

End Controller.

(** ** The average loan amount

    Modelled from the spec: the aggregate behind
    [Application.getAverageLoanAmount], a method of the entity in
    [src/models] that is outside the controller file.  It is the
    arithmetic mean of [loanAmount] over all existing records; when there are
    none it is a sentinel, for which the spec names 0 and an undefined value
    and leaves the choice open.  An undefined value compares like a NaN. *)
Definition loan_amounts (rows : list Application) : list Js.number :=
  omap (λ a, match attributes a !! "loanAmount" with
             | Some (VNumber x) => Some x
             | _ => None
             end) rows.

Definition mean_loan_amount (sentinel : Js.number) (rows : list Application)
  : Js.number :=
  match loan_amounts rows with
  | [] => sentinel
  | xs => Js.div (foldl Js.add (Js.of_Z 0) xs)
                 (Js.of_Z (Z.of_nat (length xs)))
  end.

(** ** Sample data

    A broker and a table of four applications, one of them another
    broker's, whose loan amounts average 100000; the examples below run the
    controller on them. *)
Definition broker_a : BrokerDto := mkBroker 1.

Definition sample_row (broker : Z) (st : ApplicationStatus) (amount : Z)
  (created : Date) (related : option (TaskStatus * Z)) : Application :=
  mkApplication
    (<["brokerId" := VId broker]>
       (<["status" := VApplicationStatus st]>
          (<["loanAmount" := VNumber (Js.of_Z amount)]>
             {[ "createdAt" := VDate created ]})))
    ((λ '(ts, assignee),
        mkTask (<["assignedToBrokerId" := VId assignee]>
                  {[ "status" := VTaskStatus ts ]})) <$> related).

Definition sample_table : list Application :=
  [ sample_row 1 Submitted 80000 1000 None;
    sample_row 2 Submitted 120000 2000 (Some (Completed, 2%Z));
    sample_row 1 Approved 100000 3000 (Some (Completed, 1%Z));
    sample_row 1 Rejected 100000 4000 (Some (Pending, 1%Z)) ].

Definition sample_world : World := mkWorld sample_table [] [].

Definition sample_message : string := "minimumDate is after maximumDate".

(** Queries: a date range with two statuses, the completed and the pending
    listing, inverted bounds, and an empty status list. *)
Definition query_two_statuses : BrokerApplicationsListRequestDto :=
  ListRequest.mk (Some 500%Z) (Some 3500%Z) None
    (Some [Submitted; Approved]).

Definition query_completed : BrokerApplicationsListRequestDto :=
  ListRequest.mk None None (Some true) None.

Definition query_pending : BrokerApplicationsListRequestDto :=
  ListRequest.mk None None (Some false) None.

Definition query_inverted : BrokerApplicationsListRequestDto :=
  ListRequest.mk (Some 5000%Z) (Some 3000%Z) None None.

Definition query_no_statuses : BrokerApplicationsListRequestDto :=
  ListRequest.mk None None None (Some []).

(** The task include for a broker, and the options expected for the
    queries above when broker 1 asks. *)
Definition task_include (st : TaskStatus) (broker : Z)
  (req : option bool) : IncludeOptions :=
  mkInclude TaskModel
    (Some (<["assignedToBrokerId" := Equals (VId broker)]>
             {[ "status" := Equals (VTaskStatus st) ]}))
    req.

Definition options_two_statuses : FindOptions :=
  mkFindOptions
    (<["status" := OpIn [VApplicationStatus Submitted;
                         VApplicationStatus Approved]]>
       (<["createdAt" := OpBetween (VDate 500) (VDate 3500)]>
          {[ "brokerId" := Equals (VId 1) ]}))
    [task_include Pending 1 (Some false)].

Definition options_completed : FindOptions :=
  mkFindOptions {[ "brokerId" := Equals (VId 1) ]}
    [task_include Completed 1 None].

Definition options_pending : FindOptions :=
  mkFindOptions {[ "brokerId" := Equals (VId 1) ]}
    [task_include Pending 1 (Some false)].

Definition options_no_statuses : FindOptions :=
  mkFindOptions
    (<["status" := OpIn []]> {[ "brokerId" := Equals (VId 1) ]})
    [task_include Pending 1 (Some false)].

(** Payloads above, at and below the sample average, and the world after
    each has been stored for broker 1. *)
Definition payload (amount : Z) : ApplicationDto :=
  Payload.mk (Js.of_Z amount) {[ "term" := VId 36 ]}.

Definition stored_row (amount : Z) : Application :=
  mkApplication
    (<["brokerId" := VId 1]>
       (<["status" := VApplicationStatus Submitted]>
          (Payload.object (payload amount))))
    None.

Definition world_after (amount : Z) : World :=
  mkWorld (sample_table ++ [stored_row amount])%list [] [].

(** ** Notions used in the statements *)

(** Date bounds are valid when a given minimum is not after a given
    maximum. *)
Definition valid_range (query : BrokerApplicationsListRequestDto) : Prop :=
  ∀ lo hi,
    ListRequest.minimumDate query = Some lo →
    ListRequest.maximumDate query = Some hi → (lo <= hi)%Z.

(** The same query with the [status] parameter left out. *)
Definition without_status (query : BrokerApplicationsListRequestDto)
  : BrokerApplicationsListRequestDto :=
  ListRequest.mk (ListRequest.minimumDate query)
    (ListRequest.maximumDate query) (ListRequest.completed query) None.

(** The include array of lines 93-111. *)
Definition composed_include (user : BrokerDto)
  (query : BrokerApplicationsListRequestDto) : list IncludeOptions :=
  if Js.truthy_flag (ListRequest.completed query)
  then [ mkInclude TaskModel
           (Some (<["assignedToBrokerId" := Equals (VId (id user))]>
                    {[ "status" := Equals (VTaskStatus Completed) ]}))
           None ]
  else [ mkInclude TaskModel
           (Some (<["assignedToBrokerId" := Equals (VId (id user))]>
                    {[ "status" := Equals (VTaskStatus Pending) ]}))
           (Some false) ].

(** The [where] object built from a date filter (lines 112-119). *)
Definition composed_where (user : BrokerDto)
  (query : BrokerApplicationsListRequestDto) (dateFilter : WhereOptions)
  : WhereOptions :=
  match ListRequest.status query with
  | Some statuses =>
      <["status" := OpIn (VApplicationStatus <$> statuses)]>
        (dateFilter ∪ {[ "brokerId" := Equals (VId (id user)) ]})
  | None => dateFilter ∪ {[ "brokerId" := Equals (VId (id user)) ]}
  end.

(** The application has a related task with the given status that is
    assigned to the given broker. *)
Definition has_task (st : TaskStatus) (b : Z) (a : Application) : Prop :=
  ∃ t, task a = Some t
       ∧ task_attributes t !! "status" = Some (VTaskStatus st)
       ∧ assigned_to b t.

Ltac run_monad :=
  unfold mbind, M_bind, mret, M_ret, try_catch, throw, console_log in *;
  simpl in *.

(** ** The list operation over any date-filter helper

    [find] takes its date filter from [createDateFilter], which it imports.
    Here the helper is a parameter, so that what [find] itself does with the
    helper's result, or with its failure, can be told apart from what the
    helper does. *)
Section DateFilterHelper.

Variable dateFilterOf : string → option Date → option Date → M WhereOptions.

(** Lines 87-119 of [find], over the helper. *)
Definition find_options_with (user : BrokerDto)
  (query : BrokerApplicationsListRequestDto) : M FindOptions :=
  dateFilter ←
    try_catch
      (dateFilterOf "createdAt"
         (ListRequest.minimumDate query) (ListRequest.maximumDate query))
      (λ error, throw (HttpException (exception_message error) BAD_REQUEST));
  let relatedData : list IncludeOptions := [] in
  let relatedData :=
    if Js.truthy_flag (ListRequest.completed query)
    then (relatedData ++
          [ mkInclude TaskModel
              (Some (<["assignedToBrokerId" := Equals (VId (id user))]>
                       {[ "status" := Equals (VTaskStatus Completed) ]}))
              None ])%list
    else (relatedData ++
          [ mkInclude TaskModel
              (Some (<["assignedToBrokerId" := Equals (VId (id user))]>
                       {[ "status" := Equals (VTaskStatus Pending) ]}))
              (Some false) ])%list in
  let whereOptions :=
    spread_over {[ "brokerId" := Equals (VId (id user)) ]} dateFilter in
  whereOptions ←
    match ListRequest.status query with
    | Some statuses =>
        let whereOptions :=
          <["status" := OpIn (VApplicationStatus <$> statuses)]>
            whereOptions in
        console_log whereOptions ;; mret whereOptions
    | None => mret whereOptions
    end;
  mret (mkFindOptions whereOptions relatedData).

(** [find], over the helper. *)
Definition find_with (user : BrokerDto)
  (query : BrokerApplicationsListRequestDto)
  : M BrokerApplicationsListResponseDto :=
  opts ← find_options_with user query;
  applications ← findAll opts;
  mret (ListResponse.mk true applications).

End DateFilterHelper.

(** The object handed to [create] on line 152. *)
Definition submitted_values (user : BrokerDto) (body : ApplicationDto)
  : Attributes :=
  <["brokerId" := VId (id user)]>
    (<["status" := VApplicationStatus Submitted]> (Payload.object body)).

(** None of the next [n] storage calls rejects. *)
Definition storage_up (n : nat) (w : World) : Prop :=
  ∀ m, Some m ∉ take n (faults w).

#[global] Instance owned_by_dec (b : Z) (a : Application) :
  Decision (owned_by b a).
Proof. unfold owned_by. apply _. Defined.

(** Helpers for the examples: one that fails for a reason of its own, and
    one whose filter names [brokerId]. *)
Definition failing_helper (field : string) (lo hi : option Date)
  : M WhereOptions :=
  throw (StorageFailure "connection lost").

Definition forging_helper (field : string) (lo hi : option Date)
  : M WhereOptions :=
  mret {[ "brokerId" := Equals (VId 2) ]}.

(** The same query with another completed flag. *)
Definition with_completed (flag : option bool)
  (query : BrokerApplicationsListRequestDto)
  : BrokerApplicationsListRequestDto :=
  ListRequest.mk (ListRequest.minimumDate query)
    (ListRequest.maximumDate query) flag (ListRequest.status query).

(** More sample data: a second broker, and the sample world with a
    repository whose next call, or next call but one, is rejected. *)
Definition broker_b : BrokerDto := mkBroker 2.

Definition sample_world_down : World :=
  mkWorld sample_table [] [Some "timeout"].

Definition sample_world_failing_write : World :=
  mkWorld sample_table [] [None; Some "disk full"].

(** ** Facts about number comparison *)
Lemma SFcompare_antisym (a b : Js.number) :
  SFcompare b a = CompOpp <$> SFcompare a b.
Proof.
  destruct a as [sa|sa| |sa ma ea], b as [sb|sb| |sb mb eb]; simpl;
    try reflexivity;
    try (destruct sa; reflexivity); try (destruct sb; reflexivity);
    try (destruct sa, sb; reflexivity).
  destruct sa, sb; simpl; try reflexivity;
    rewrite (Z.compare_antisym eb ea);
    destruct (eb ?= ea)%Z eqn:He; simpl; try reflexivity;
    rewrite (Pos.compare_cont_antisym ma mb Eq); simpl;
    try rewrite CompOpp_involutive; reflexivity.
Qed.

Lemma strict_eq_not_lt (a b : Js.number) :
  Js.strict_eq a b = true → Js.lt a b = false ∧ Js.gt a b = false.
Proof.
  unfold Js.strict_eq, Js.lt, Js.gt, SFeqb, SFltb.
  rewrite (SFcompare_antisym a b).
  destruct (SFcompare a b) as [[ | | ]|]; simpl; intros H;
    try discriminate H; split; reflexivity.
Qed.

Lemma lt_not_gt (a b : Js.number) :
  Js.lt a b = true → Js.gt a b = false ∧ Js.strict_eq a b = false.
Proof.
  unfold Js.strict_eq, Js.lt, Js.gt, SFeqb, SFltb.
  rewrite (SFcompare_antisym a b).
  destruct (SFcompare a b) as [[ | | ]|]; simpl; intros H;
    try discriminate H; split; reflexivity.
Qed.

Lemma comparable_trichotomy (a b : Js.number) :
  Js.comparable a b →
  Js.gt a b = true ∨ Js.lt a b = true ∨ Js.strict_eq a b = true.
Proof.
  unfold Js.comparable, Js.strict_eq, Js.lt, Js.gt, SFeqb, SFltb.
  rewrite (SFcompare_antisym a b).
  intros [c Hc]. rewrite Hc. destruct c; simpl; auto.
Qed.

(** ** Facts about [where] objects *)
Lemma where_matches_lookup (w : WhereOptions) (row : Attributes) k c :
  where_matches w row = true → w !! k = Some c →
  cond_holds c (row !! k) = true.
Proof.
  unfold where_matches. intros H Hk.
  apply bool_decide_eq_true in H. exact (H k c Hk).
Qed.

Lemma where_matches_insert (w : WhereOptions) (row : Attributes) k c :
  w !! k = None →
  where_matches (<[k := c]> w) row = true ↔
  cond_holds c (row !! k) = true ∧ where_matches w row = true.
Proof.
  intros Hk. unfold where_matches.
  rewrite !bool_decide_eq_true, map_Forall_insert by exact Hk.
  reflexivity.
Qed.

Lemma where_matches_singleton (row : Attributes) k c :
  where_matches {[ k := c ]} row = true ↔ cond_holds c (row !! k) = true.
Proof.
  unfold where_matches.
  rewrite bool_decide_eq_true, map_Forall_singleton. reflexivity.
Qed.

Lemma cond_holds_Equals v (column : option Value) :
  cond_holds (Equals v) column = true ↔ column = Some v.
Proof.
  destruct column as [x|]; simpl.
  - rewrite bool_decide_eq_true. split; congruence.
  - split; discriminate.
Qed.

Lemma cond_holds_OpIn vs (column : option Value) :
  cond_holds (OpIn vs) column = true ↔ ∃ x, column = Some x ∧ x ∈ vs.
Proof.
  destruct column as [x|]; simpl.
  - rewrite bool_decide_eq_true. split.
    + intros Hx. exists x. split; [reflexivity | exact Hx].
    + intros (y & [= <-] & Hy). exact Hy.
  - split; [discriminate | intros (y & Hy & _); discriminate].
Qed.

(** A property the [where] object does not mention is not constrained. *)
Lemma where_matches_unmentioned (w : WhereOptions) (row : Attributes) k v :
  w !! k = None →
  where_matches w (<[k := v]> row) = where_matches w row.
Proof.
  intros Hk. unfold where_matches. apply bool_decide_ext.
  split; intros H j c Hj; specialize (H j c Hj); simpl in *;
    destruct (decide (k = j)) as [->|Hne]; try congruence.
  - rewrite lookup_insert_ne in H by exact Hne. exact H.
  - rewrite lookup_insert_ne by exact Hne. exact H.
Qed.

(** The [where] of the task include built by [find]. *)
Lemma task_where_matches (b : Z) (st : TaskStatus) (t : Task) :
  where_matches
    (<["assignedToBrokerId" := Equals (VId b)]>
       {[ "status" := Equals (VTaskStatus st) ]})
    (task_attributes t) = true ↔
  task_attributes t !! "status" = Some (VTaskStatus st) ∧ assigned_to b t.
Proof.
  rewrite where_matches_insert by reflexivity.
  rewrite where_matches_singleton, !cond_holds_Equals.
  unfold assigned_to. tauto.
Qed.

(** ** Running the controller *)

Lemma createDateFilter_inv msg field lo hi (w w' : World) df :
  createDateFilter msg field lo hi w = (Returned df, w') →
  w' = w ∧ ∀ k, k ≠ field → df !! k = None.
Proof.
  unfold createDateFilter.
  destruct lo as [lo|], hi as [hi|]; try destruct (hi <? lo)%Z;
    run_monad; intros [= <- <-]; (split; [reflexivity|]); intros k Hk;
    try apply lookup_empty; apply lookup_singleton_ne; congruence.
Qed.

Lemma createDateFilter_valid msg field lo hi (w : World) :
  (∀ l h, lo = Some l → hi = Some h → (l <= h)%Z) →
  ∃ df, createDateFilter msg field lo hi w = (Returned df, w).
Proof.
  intros Hv. unfold createDateFilter.
  destruct lo as [lo|], hi as [hi|]; run_monad; eauto.
  specialize (Hv lo hi eq_refl eq_refl).
  destruct (hi <? lo)%Z eqn:E; [apply Z.ltb_lt in E; lia | eauto].
Qed.

Lemma find_options_inv msg user query (w w' : World) opts :
  find_options msg user query w = (Returned opts, w') →
  ∃ dateFilter,
    createDateFilter msg "createdAt" (ListRequest.minimumDate query)
      (ListRequest.maximumDate query) w = (Returned dateFilter, w)
    ∧ include opts = composed_include user query
    ∧ find_where opts =
        match ListRequest.status query with
        | Some statuses =>
            <["status" := OpIn (VApplicationStatus <$> statuses)]>
              (dateFilter ∪ {[ "brokerId" := Equals (VId (id user)) ]})
        | None => dateFilter ∪ {[ "brokerId" := Equals (VId (id user)) ]}
        end
    ∧ table w' = table w ∧ faults w' = faults w
    ∧ console w' =
        (console w ++
         match ListRequest.status query with
         | Some _ => [find_where opts]
         | None => []
         end)%list.
Proof.
  unfold find_options, composed_include, spread_over.
  destruct (createDateFilter msg "createdAt" (ListRequest.minimumDate query)
              (ListRequest.maximumDate query) w) as [[df|e] w1] eqn:Hdf.
  - destruct (createDateFilter_inv _ _ _ _ _ _ _ Hdf) as [-> _].
    intros H. exists df. split; [reflexivity|].
    unfold mbind, M_bind, try_catch in H. rewrite Hdf in H.
    destruct (ListRequest.status query) as [statuses|];
      destruct (Js.truthy_flag (ListRequest.completed query));
      run_monad; injection H as <- <-; simpl;
      rewrite ?app_nil_r; destruct w; auto 10.
  - intros H. unfold mbind, M_bind, try_catch in H. rewrite Hdf in H.
    run_monad. discriminate H.
Qed.

Lemma storage_call_inv {A : Type} (op : list Application → A * list Application)
  (w w' : World) (a : A) :
  storage_call op w = (Returned a, w') →
  a = (op (table w)).1 ∧ table w' = (op (table w)).2
  ∧ console w' = console w ∧ faults w' = tail (faults w).
Proof.
  unfold storage_call.
  destruct (faults w) as [|[m|] rest]; destruct (op (table w)) as [x t];
    simpl; intros [= <- <-]; auto.
Qed.

Lemma find_inv msg user query (w w' : World) resp :
  find msg user query w = (Returned resp, w') →
  ∃ opts w1,
    find_options msg user query w = (Returned opts, w1)
    ∧ resp = ListResponse.mk true (query_rows opts (table w)).
Proof.
  unfold find. unfold mbind at 1, M_bind at 1.
  destruct (find_options msg user query w) as [[opts|e] w1] eqn:Hopts;
    [|discriminate].
  destruct (find_options_inv _ _ _ _ _ _ Hopts) as (_ & _ & _ & _ & Ht & _).
  unfold mbind, M_bind, findAll.
  destruct (storage_call _ w1) as [[rows|e] w2] eqn:Hcall; [|discriminate].
  apply storage_call_inv in Hcall as (-> & _). simpl.
  run_monad. intros [= <- <-]. exists opts, w1.
  split; [reflexivity|]. congruence.
Qed.

Lemma post_persist_inv average_of user body (w w' : World) avg echo :
  post_persist average_of user body w = (Returned (avg, echo), w') →
  avg = average_of (table w)
  ∧ echo = (if Js.strict_neq (Payload.loanAmount body) avg
            then Some (Payload.loanAmount body) else None)
  ∧ table w' =
      (table w ++
       [ mkApplication
           (<["brokerId" := VId (id user)]>
              (<["status" := VApplicationStatus Submitted]>
                 (Payload.object body)))
           None ])%list.
Proof.
  unfold post_persist, getAverageLoanAmount, create.
  unfold mbind at 1, M_bind at 1.
  destruct (storage_call _ w) as [[x|e] w1] eqn:H1; [|discriminate].
  apply storage_call_inv in H1 as (-> & Ht1 & _). simpl in Ht1.
  unfold mbind, M_bind.
  destruct (storage_call _ w1) as [[row|e] w2] eqn:H2; [|discriminate].
  apply storage_call_inv in H2 as (_ & Ht2 & _). simpl in Ht2.
  run_monad. intros [= <- <- <-]. rewrite Ht2, Ht1. auto.
Qed.

Lemma post_inv average_of user body (w w' : World) resp :
  post average_of user body w = (Returned resp, w') →
  ∃ avg echo,
    post_persist average_of user body w = (Returned (avg, echo), w')
    ∧ post_respond body avg echo w' = (Returned resp, w').
Proof.
  unfold post. unfold mbind, M_bind.
  destruct (post_persist average_of user body w) as [[[avg echo]|e] w1]
    eqn:Hp; [|discriminate].
  intros H. exists avg, echo.
  assert (w' = w1) as -> by (unfold post_respond in H; run_monad; congruence).
  split; [reflexivity | exact H].
Qed.

(** ** Facts about the composed options *)
Lemma find_where_brokerId msg user query (w w' : World) opts :
  find_options msg user query w = (Returned opts, w') →
  find_where opts !! "brokerId" = Some (Equals (VId (id user))).
Proof.
  intros H. apply find_options_inv in H as (df & Hdf & _ & Hw & _).
  apply createDateFilter_inv in Hdf as [_ Hkeys].
  rewrite Hw. destruct (ListRequest.status query).
  - rewrite lookup_insert_ne by discriminate.
    rewrite lookup_union_r by (apply Hkeys; discriminate).
    apply lookup_singleton_eq.
  - rewrite lookup_union_r by (apply Hkeys; discriminate).
    apply lookup_singleton_eq.
Qed.

Lemma find_where_status msg user query (w w' : World) opts :
  find_options msg user query w = (Returned opts, w') →
  find_where opts !! "status" =
  (λ statuses, OpIn (VApplicationStatus <$> statuses))
    <$> ListRequest.status query.
Proof.
  intros H. apply find_options_inv in H as (df & Hdf & _ & Hw & _).
  apply createDateFilter_inv in Hdf as [_ Hkeys].
  rewrite Hw. destruct (ListRequest.status query); simpl.
  - apply lookup_insert_eq.
  - rewrite lookup_union_r by (apply Hkeys; discriminate).
    apply lookup_singleton_ne. discriminate.
Qed.

Lemma select_row_single (opts : FindOptions) inc (a : Application) :
  include opts = [inc] →
  select_row opts a =
  if where_matches (find_where opts) (attributes a)
  then join_include inc a else None.
Proof. intros Hinc. unfold select_row. rewrite Hinc. reflexivity. Qed.

Lemma join_include_Some inc (a a' : Application) :
  join_include inc a = Some a' →
  attributes a' = attributes a
  ∧ ∀ t, task a' = Some t → task a = Some t ∧ include_matches inc t = true.
Proof.
  unfold join_include. destruct (task a) as [t|].
  - destruct (include_matches inc t) eqn:Hm.
    + intros [= <-]. simpl. split; [reflexivity|].
      intros t' [= <-]. auto.
    + destruct (include_required inc); [discriminate|].
      intros [= <-]. simpl. split; [reflexivity | discriminate].
  - destruct (include_required inc); [discriminate|].
    intros [= <-]. simpl. split; [reflexivity | discriminate].
Qed.

Lemma composed_include_single user query :
  ∃ st req,
    composed_include user query =
    [ mkInclude TaskModel
        (Some (<["assignedToBrokerId" := Equals (VId (id user))]>
                 {[ "status" := Equals (VTaskStatus st) ]}))
        req ].
Proof.
  unfold composed_include.
  destruct (Js.truthy_flag (ListRequest.completed query)); eauto.
Qed.

(** C1. Actor scoping: whatever the query parameters, the composed
    [where] has [brokerId] equal to the acting broker and every include's
    [where] has [assignedToBrokerId] equal to the acting broker.  Hence an
    application owned by another broker never satisfies the [where], a task
    assigned to another broker never satisfies the include, and every row
    the query returns from any table, and so every row of the response of
    [find], is owned by the actor and carries only a task assigned to the
    actor. *)
Theorem list_scoped_to_actor msg user query (w w' : World) opts
  (Hrun : find_options msg user query w = (Returned opts, w')) :
  find_where opts !! "brokerId" = Some (Equals (VId (id user)))
  ∧ (∀ inc, inc ∈ include opts →
       ∃ tw, where_ inc = Some tw
             ∧ tw !! "assignedToBrokerId" = Some (Equals (VId (id user))))
  ∧ (∀ b a, b ≠ id user → owned_by b a →
       where_matches (find_where opts) (attributes a) = false)
  ∧ (∀ b inc t, b ≠ id user → inc ∈ include opts → assigned_to b t →
       include_matches inc t = false)
  ∧ (∀ rows a, a ∈ query_rows opts rows →
       owned_by (id user) a
       ∧ ∀ t, task a = Some t → assigned_to (id user) t)
  ∧ (∀ resp w2 a, find msg user query w = (Returned resp, w2) →
       a ∈ ListResponse.applications resp →
       owned_by (id user) a
       ∧ ∀ t, task a = Some t → assigned_to (id user) t).
Proof.
  pose proof (find_where_brokerId _ _ _ _ _ _ Hrun) as Hb.
  pose proof (find_options_inv _ _ _ _ _ _ Hrun) as (df & _ & Hinc & _).
  destruct (composed_include_single user query) as (st & req & Hsingle).
  rewrite Hsingle in Hinc.
  assert (Hrows : ∀ rows a, a ∈ query_rows opts rows →
            owned_by (id user) a
            ∧ ∀ t, task a = Some t → assigned_to (id user) t).
  { intros rows a Ha. unfold query_rows in Ha.
    apply list_elem_of_omap in Ha as (a0 & _ & Hsel).
    rewrite (select_row_single _ _ _ Hinc) in Hsel.
    destruct (where_matches (find_where opts) (attributes a0)) eqn:Hm;
      [|discriminate].
    apply join_include_Some in Hsel as [Hattr Htask].
    split.
    - unfold owned_by. rewrite Hattr.
      apply cond_holds_Equals.
      exact (where_matches_lookup _ _ _ _ Hm Hb).
    - intros t Ht. destruct (Htask t Ht) as [_ Hmt].
      unfold include_matches in Hmt. simpl in Hmt.
      apply task_where_matches in Hmt as [_ Hassigned]. exact Hassigned. }
  split; [exact Hb|]. split; [|split; [|split; [|split]]].
  - intros inc Hin. rewrite Hinc in Hin.
    apply list_elem_of_singleton in Hin as ->. simpl.
    eexists. split; [reflexivity|]. apply lookup_insert_eq.
  - intros b a Hne Hown.
    destruct (where_matches (find_where opts) (attributes a)) eqn:Hm;
      [|reflexivity].
    pose proof (where_matches_lookup _ _ _ _ Hm Hb) as Hc.
    apply cond_holds_Equals in Hc. unfold owned_by in Hown. congruence.
  - intros b inc t Hne Hin Hassigned. rewrite Hinc in Hin.
    apply list_elem_of_singleton in Hin as ->.
    destruct (include_matches _ t) eqn:Hm; [|reflexivity].
    unfold include_matches in Hm. simpl in Hm.
    apply task_where_matches in Hm as [_ Ha].
    unfold assigned_to in *. congruence.
  - exact Hrows.
  - intros resp w2 a Hfind Ha.
    apply find_inv in Hfind as (opts' & w1 & Hopts' & ->).
    rewrite Hrun in Hopts'. injection Hopts' as <- <-.
    simpl in Ha. exact (Hrows _ _ Ha).
Qed.

Lemma has_task_decide (st : TaskStatus) (b : Z) (a : Application) :
  has_task st b a ∨ ¬ has_task st b a.
Proof.
  unfold has_task, assigned_to. destruct (task a) as [t|].
  - destruct (decide (task_attributes t !! "status" = Some (VTaskStatus st)))
      as [Hs|Hs];
      [destruct (decide (task_attributes t !! "assignedToBrokerId"
                         = Some (VId b))) as [Hb|Hb]|].
    + left. exists t. auto.
    + right. intros (t' & [= <-] & _ & Hb'). contradiction.
    + right. intros (t' & [= <-] & Hs' & _). contradiction.
  - right. intros (t & Ht & _). discriminate Ht.
Qed.

Lemma join_include_task_filter (b : Z) (st : TaskStatus) req
  (a : Application) :
  let inc :=
    mkInclude TaskModel
      (Some (<["assignedToBrokerId" := Equals (VId b)]>
               {[ "status" := Equals (VTaskStatus st) ]})) req in
  (has_task st b a →
     ∃ t, task a = Some t
          ∧ join_include inc a = Some (mkApplication (attributes a) (Some t)))
  ∧ (¬ has_task st b a →
     join_include inc a =
     if include_required inc then None
     else Some (mkApplication (attributes a) None)).
Proof.
  intros inc. unfold join_include, has_task.
  destruct (task a) as [t|].
  - destruct (include_matches inc t) eqn:Hm; unfold include_matches in Hm;
      simpl in Hm.
    + apply task_where_matches in Hm. split.
      * intros _. exists t. auto.
      * intros Hno. exfalso. apply Hno. exists t. tauto.
    + split.
      * intros (t' & [= <-] & Hst & Has).
        assert (where_matches
                  (<["assignedToBrokerId" := Equals (VId b)]>
                     {[ "status" := Equals (VTaskStatus st) ]})
                  (task_attributes t) = true) as Hyes
          by (apply task_where_matches; auto).
        congruence.
      * intros _. reflexivity.
  - split.
    + intros (t & Ht & _). discriminate Ht.
    + intros _. reflexivity.
Qed.

(** C2. The completion flag chooses the join.  With [completed] true the
    single include asks for a task with status [Completed] assigned to the
    actor and is required: an application without such a task is dropped,
    one with such a task is returned with it.  With [completed] false or
    absent the include asks for status [Pending], assigned to the actor, and
    is optional: an application that satisfies the [where] and has no such
    task is still returned, with an empty task field. *)
Theorem completed_flag_selects_join msg user query (w w' : World) opts
  (Hrun : find_options msg user query w = (Returned opts, w')) :
  (ListRequest.completed query = Some true →
     include opts =
       [ mkInclude TaskModel
           (Some (<["assignedToBrokerId" := Equals (VId (id user))]>
                    {[ "status" := Equals (VTaskStatus Completed) ]}))
           None ]
     ∧ (∀ inc, inc ∈ include opts → include_required inc = true)
     ∧ (∀ a, ¬ has_task Completed (id user) a → select_row opts a = None)
     ∧ (∀ rows a, a ∈ query_rows opts rows →
          has_task Completed (id user) a)
     ∧ (∀ rows a, a ∈ rows →
          where_matches (find_where opts) (attributes a) = true →
          has_task Completed (id user) a →
          mkApplication (attributes a) (task a) ∈ query_rows opts rows))
  ∧ (ListRequest.completed query = Some false
     ∨ ListRequest.completed query = None →
     include opts =
       [ mkInclude TaskModel
           (Some (<["assignedToBrokerId" := Equals (VId (id user))]>
                    {[ "status" := Equals (VTaskStatus Pending) ]}))
           (Some false) ]
     ∧ (∀ inc, inc ∈ include opts → include_required inc = false)
     ∧ (∀ a, where_matches (find_where opts) (attributes a) = true →
          ¬ has_task Pending (id user) a →
          select_row opts a = Some (mkApplication (attributes a) None))
     ∧ (∀ rows a, a ∈ rows →
          where_matches (find_where opts) (attributes a) = true →
          ¬ has_task Pending (id user) a →
          mkApplication (attributes a) None ∈ query_rows opts rows)
     ∧ (∀ rows a, a ∈ rows →
          where_matches (find_where opts) (attributes a) = true →
          has_task Pending (id user) a →
          mkApplication (attributes a) (task a) ∈ query_rows opts rows)).
Proof.
  pose proof (find_options_inv _ _ _ _ _ _ Hrun) as (df & _ & Hinc & _).
  unfold composed_include in Hinc.
  split.
  - intros Hc. rewrite Hc in Hinc. simpl in Hinc.
    split; [exact Hinc|]. split; [|split; [|split]].
    + intros inc Hin. rewrite Hinc in Hin.
      apply list_elem_of_singleton in Hin as ->. reflexivity.
    + intros a Hno. rewrite (select_row_single _ _ _ Hinc).
      destruct (where_matches _ _); [|reflexivity].
      destruct (join_include_task_filter (id user) Completed None a)
        as [_ Hn].
      rewrite (Hn Hno). reflexivity.
    + intros rows a Ha. apply list_elem_of_omap in Ha as (a0 & _ & Hsel).
      rewrite (select_row_single _ _ _ Hinc) in Hsel.
      destruct (where_matches _ _); [|discriminate].
      destruct (has_task_decide Completed (id user) a0) as [Hyes|Hno].
      * destruct (join_include_task_filter (id user) Completed None a0)
          as [Hy _].
        destruct (Hy Hyes) as (t & Ht & Hj). rewrite Hj in Hsel.
        injection Hsel as <-.
        destruct Hyes as (t' & Ht' & Hst & Has).
        exists t'. simpl. split; [congruence | auto].
      * destruct (join_include_task_filter (id user) Completed None a0)
          as [_ Hn].
        rewrite (Hn Hno) in Hsel. discriminate Hsel.
    + intros rows a Ha Hm Hyes. apply list_elem_of_omap.
      exists a. split; [exact Ha|].
      rewrite (select_row_single _ _ _ Hinc), Hm.
      destruct (join_include_task_filter (id user) Completed None a)
        as [Hy _].
      destruct (Hy Hyes) as (t & Ht & Hj). rewrite Hj, Ht. reflexivity.
  - intros Hc.
    assert (Js.truthy_flag (ListRequest.completed query) = false) as Hf
      by (destruct Hc as [-> | ->]; reflexivity).
    rewrite Hf in Hinc.
    split; [exact Hinc|]. split; [|split; [|split]].
    + intros inc Hin. rewrite Hinc in Hin.
      apply list_elem_of_singleton in Hin as ->. reflexivity.
    + intros a Hm Hno. rewrite (select_row_single _ _ _ Hinc), Hm.
      destruct (join_include_task_filter (id user) Pending (Some false) a)
        as [_ Hn].
      rewrite (Hn Hno). reflexivity.
    + intros rows a Ha Hm Hno. apply list_elem_of_omap.
      exists a. split; [exact Ha|].
      rewrite (select_row_single _ _ _ Hinc), Hm.
      destruct (join_include_task_filter (id user) Pending (Some false) a)
        as [_ Hn].
      rewrite (Hn Hno). reflexivity.
    + intros rows a Ha Hm Hyes. apply list_elem_of_omap.
      exists a. split; [exact Ha|].
      rewrite (select_row_single _ _ _ Hinc), Hm.
      destruct (join_include_task_filter (id user) Pending (Some false) a)
        as [Hy _].
      destruct (Hy Hyes) as (t & Ht & Hj). rewrite Hj, Ht. reflexivity.
Qed.

Lemma find_options_run msg user query (w : World) df :
  createDateFilter msg "createdAt" (ListRequest.minimumDate query)
    (ListRequest.maximumDate query) w = (Returned df, w) →
  find_options msg user query w =
  (Returned (mkFindOptions (composed_where user query df)
               (composed_include user query)),
   mkWorld (table w)
     (console w ++
      match ListRequest.status query with
      | Some _ => [composed_where user query df]
      | None => []
      end)%list
     (faults w)).
Proof.
  intros Hdf.
  unfold find_options, composed_include, composed_where, spread_over.
  unfold mbind at 1, M_bind at 1, try_catch. rewrite Hdf.
  destruct (ListRequest.status query) as [statuses|];
    destruct (Js.truthy_flag (ListRequest.completed query));
    run_monad; rewrite ?app_nil_r; destruct w; reflexivity.
Qed.

Lemma createDateFilter_any_world msg field lo hi (w1 w2 : World) df :
  createDateFilter msg field lo hi w1 = (Returned df, w1) →
  createDateFilter msg field lo hi w2 = (Returned df, w2).
Proof.
  unfold createDateFilter.
  destruct lo as [lo|], hi as [hi|]; try destruct (hi <? lo)%Z;
    run_monad; intros [= <-]; reflexivity.
Qed.

Lemma query_rows_no_match (opts : FindOptions) (rows : list Application) :
  (∀ row, where_matches (find_where opts) row = false) →
  query_rows opts rows = [].
Proof.
  intros Hno. unfold query_rows.
  induction rows as [|a rows IH]; [reflexivity|].
  simpl. unfold select_row at 1. rewrite Hno. exact IH.
Qed.

(** C3. Inverted date bounds.  When the minimum date is after the maximum
    date the date filter fails with [InvalidRange]; [find] turns the failure
    into an [HttpException] with status [BAD_REQUEST] that carries the same
    message.  Nothing is returned, nothing is logged and no storage call is
    made: the world is left as it was. *)
Theorem inverted_range_is_bad_request msg user query (w : World) lo hi
  (Hmin : ListRequest.minimumDate query = Some lo)
  (Hmax : ListRequest.maximumDate query = Some hi)
  (Hinverted : (hi < lo)%Z) :
  createDateFilter msg "createdAt" (ListRequest.minimumDate query)
    (ListRequest.maximumDate query) w = (Threw (InvalidRange msg), w)
  ∧ find_options msg user query w
    = (Threw (HttpException msg BAD_REQUEST), w)
  ∧ find msg user query w = (Threw (HttpException msg BAD_REQUEST), w).
Proof.
  assert (createDateFilter msg "createdAt" (ListRequest.minimumDate query)
            (ListRequest.maximumDate query) w = (Threw (InvalidRange msg), w))
    as Hdf.
  { rewrite Hmin, Hmax. unfold createDateFilter.
    apply Z.ltb_lt in Hinverted. rewrite Hinverted. reflexivity. }
  assert (find_options msg user query w
          = (Threw (HttpException msg BAD_REQUEST), w)) as Hopts.
  { unfold find_options. unfold mbind at 1, M_bind at 1, try_catch.
    rewrite Hdf. reflexivity. }
  split; [exact Hdf|]. split; [exact Hopts|].
  unfold find. unfold mbind at 1, M_bind at 1. rewrite Hopts. reflexivity.
Qed.

(** C7. The status filter.  When the caller supplies a non-empty list of
    statuses, the composed [where] is the one composed without the [status]
    parameter plus a membership condition on the [status] column: a row
    satisfies it exactly when it satisfies the other conditions and its
    status is one of the supplied ones.  When the parameter is omitted the
    [where] has no [status] property and does not depend on the row's
    status. *)
Theorem status_filter msg user query (w w' : World) opts
  (Hrun : find_options msg user query w = (Returned opts, w')) :
  (∀ statuses,
     ListRequest.status query = Some statuses → statuses ≠ [] →
     find_where opts !! "status"
       = Some (OpIn (VApplicationStatus <$> statuses))
     ∧ ∃ opts0 w0,
         find_options msg user (without_status query) w
           = (Returned opts0, w0)
         ∧ find_where opts0 !! "status" = None
         ∧ ∀ row : Attributes,
             where_matches (find_where opts) row = true ↔
             where_matches (find_where opts0) row = true
             ∧ ∃ s, row !! "status" = Some (VApplicationStatus s)
                    ∧ s ∈ statuses)
  ∧ (ListRequest.status query = None →
     find_where opts !! "status" = None
     ∧ ∀ (row : Attributes) v,
         where_matches (find_where opts) (<["status" := v]> row)
         = where_matches (find_where opts) row).
Proof.
  pose proof (find_where_status _ _ _ _ _ _ Hrun) as Hst.
  pose proof (find_options_inv _ _ _ _ _ _ Hrun) as (df & Hdf & _ & Hw & _).
  split.
  - intros statuses Hq _. rewrite Hq in Hst. simpl in Hst.
    split; [exact Hst|].
    pose proof (find_options_run msg user (without_status query) w df Hdf)
      as Hrun0.
    eexists _, _. split; [exact Hrun0|].
    pose proof (find_where_status _ _ _ _ _ _ Hrun0) as Hst0.
    simpl in Hst0. split; [exact Hst0|].
    intros row. rewrite Hq in Hw. rewrite Hw. simpl.
    unfold composed_where in *. simpl in *.
    rewrite where_matches_insert by exact Hst0.
    rewrite cond_holds_OpIn. split.
    + intros [(x & Hx & Hin) Hm]. split; [exact Hm|].
      apply list_elem_of_fmap in Hin as (s & -> & Hs). eauto.
    + intros [Hm (s & Hs & Hin)]. split; [|exact Hm].
      exists (VApplicationStatus s). split; [exact Hs|].
      apply list_elem_of_fmap. eauto.
  - intros Hq. rewrite Hq in Hst. simpl in Hst. split; [exact Hst|].
    intros row v. apply where_matches_unmentioned. exact Hst.
Qed.

(** C9. An empty status list is not an omitted one.  When the caller
    supplies the empty list, the composed [where] still has a membership
    condition on [status], over no values: no row satisfies it, the query
    returns nothing from any table and the response of [find] has no
    applications.  The same query with the parameter omitted has no
    condition on [status], so the two [where] objects differ. *)
Theorem empty_status_list_matches_nothing msg user query (w w' : World) opts
  (Hrun : find_options msg user query w = (Returned opts, w'))
  (Hempty : ListRequest.status query = Some []) :
  find_where opts !! "status" = Some (OpIn [])
  ∧ (∀ row : Attributes, where_matches (find_where opts) row = false)
  ∧ (∀ rows, query_rows opts rows = [])
  ∧ (∀ resp w2, find msg user query w = (Returned resp, w2) →
       ListResponse.applications resp = [])
  ∧ ∃ opts0 w0,
      find_options msg user (without_status query) w = (Returned opts0, w0)
      ∧ find_where opts0 !! "status" = None
      ∧ find_where opts0 ≠ find_where opts.
Proof.
  pose proof (find_where_status _ _ _ _ _ _ Hrun) as Hst.
  rewrite Hempty in Hst. simpl in Hst.
  assert (∀ row : Attributes, where_matches (find_where opts) row = false)
    as Hno.
  { intros row.
    destruct (where_matches (find_where opts) row) eqn:Hm; [|reflexivity].
    pose proof (where_matches_lookup _ _ _ _ Hm Hst) as Hc.
    apply cond_holds_OpIn in Hc as (x & _ & Hx).
    apply elem_of_nil in Hx. contradiction. }
  split; [exact Hst|]. split; [exact Hno|]. split; [|split].
  - intros rows. apply query_rows_no_match. exact Hno.
  - intros resp w2 Hfind.
    apply find_inv in Hfind as (opts' & w1 & Hopts' & ->).
    rewrite Hrun in Hopts'. injection Hopts' as <- <-. simpl.
    apply query_rows_no_match. exact Hno.
  - pose proof (find_options_inv _ _ _ _ _ _ Hrun) as (df & Hdf & _).
    pose proof (find_options_run msg user (without_status query) w df Hdf)
      as Hrun0.
    eexists _, _. split; [exact Hrun0|].
    pose proof (find_where_status _ _ _ _ _ _ Hrun0) as Hst0.
    simpl in Hst0. split; [exact Hst0|].
    intros Heq. simpl in Heq. rewrite Heq in Hst0. congruence.
Qed.

(** C8. Composition is deterministic.  For valid date bounds the options
    are composed successfully, and they are the same from any two worlds,
    whatever their tables and consoles hold, so also when the composition
    is run twice in a row.  Composing changes nothing but the console, which
    gains at most one line, a copy of the composed [where]; the options
    returned do not depend on what the console holds. *)
Theorem composition_deterministic msg user query (w1 w2 : World)
  (Hvalid : valid_range query) :
  ∃ opts,
    (find_options msg user query w1).1 = Returned opts
    ∧ (find_options msg user query w2).1 = Returned opts
    ∧ (∀ w, (find_options msg user query w).1 = Returned opts
            ∧ table (find_options msg user query w).2 = table w
            ∧ faults (find_options msg user query w).2 = faults w
            ∧ ∃ lines,
                console (find_options msg user query w).2
                = (console w ++ lines)%list
                ∧ (lines = [] ∨ lines = [find_where opts]))
    ∧ ∀ w,
        ((o1 ← find_options msg user query;
          o2 ← find_options msg user query;
          mret (o1, o2)) w).1 = Returned (opts, opts).
Proof.
  destruct (createDateFilter_valid msg "createdAt"
              (ListRequest.minimumDate query) (ListRequest.maximumDate query)
              w1 Hvalid) as [df Hdf].
  assert (∀ w, find_options msg user query w =
               (Returned (mkFindOptions (composed_where user query df)
                            (composed_include user query)),
                mkWorld (table w)
                  (console w ++
                   match ListRequest.status query with
                   | Some _ => [composed_where user query df]
                   | None => []
                   end)%list
                  (faults w))) as Hany.
  { intros w. apply find_options_run.
    exact (createDateFilter_any_world _ _ _ _ _ w _ Hdf). }
  exists (mkFindOptions (composed_where user query df)
            (composed_include user query)).
  split; [rewrite Hany; reflexivity|].
  split; [rewrite Hany; reflexivity|]. split.
  - intros w. rewrite Hany. simpl.
    split; [reflexivity|]. split; [reflexivity|]. split; [reflexivity|].
    eexists. split; [reflexivity|].
    destruct (ListRequest.status query); auto.
  - intros w. unfold mbind, M_bind. rewrite Hany. rewrite Hany. reflexivity.
Qed.

Lemma post_response average_of user body (w w' : World) resp :
  post average_of user body w = (Returned resp, w') →
  resp =
  PostResponse.mk true
    (if Js.strict_neq (Payload.loanAmount body) (average_of (table w))
     then Some (Payload.loanAmount body) else None)
    ("Loan amount is " ++
     (if Js.gt (Payload.loanAmount body) (average_of (table w))
      then "above"
      else if Js.lt (Payload.loanAmount body) (average_of (table w))
           then "below" else "at") ++
     " average").
Proof.
  intros H. apply post_inv in H as (avg & echo & Hp & Hr).
  apply post_persist_inv in Hp as (-> & -> & _).
  unfold post_respond in Hr. run_monad. congruence.
Qed.

(** C4. The echo of the loan amount.  In the response of a successful
    submission the [loanAmount] field is the submitted amount when that
    amount differs ([!==]) from the average read before the record was
    written, and is null when the two are equal ([===]). *)
Theorem echo_suppressed_at_average average_of user body (w w' : World) resp
  (Hrun : post average_of user body w = (Returned resp, w')) :
  (Js.strict_neq (Payload.loanAmount body) (average_of (table w)) = true →
     PostResponse.loanAmount resp = Some (Payload.loanAmount body))
  ∧ (Js.strict_eq (Payload.loanAmount body) (average_of (table w)) = true →
     PostResponse.loanAmount resp = None).
Proof.
  rewrite (post_response _ _ _ _ _ _ Hrun). simpl.
  unfold Js.strict_neq, Js.strict_eq. split; intros ->; reflexivity.
Qed.

(** C5. The message.  In the response of a successful submission the
    message is "Loan amount is above average" when the submitted amount is
    greater than the average read before the record was written, "Loan
    amount is below average" when it is less, and "Loan amount is at
    average" when the two are equal. *)
Theorem message_classifies_amount average_of user body (w w' : World) resp
  (Hrun : post average_of user body w = (Returned resp, w')) :
  PostResponse.success resp = true
  ∧ (Js.gt (Payload.loanAmount body) (average_of (table w)) = true →
     PostResponse.message resp = "Loan amount is above average")
  ∧ (Js.lt (Payload.loanAmount body) (average_of (table w)) = true →
     PostResponse.message resp = "Loan amount is below average")
  ∧ (Js.strict_eq (Payload.loanAmount body) (average_of (table w)) = true →
     PostResponse.message resp = "Loan amount is at average").
Proof.
  rewrite (post_response _ _ _ _ _ _ Hrun). simpl.
  split; [reflexivity|]. split; [|split].
  - intros ->. reflexivity.
  - intros Hlt. destruct (lt_not_gt _ _ Hlt) as [-> _].
    rewrite Hlt. reflexivity.
  - intros Heq. destruct (strict_eq_not_lt _ _ Heq) as [-> ->].
    reflexivity.
Qed.

(** C6. Persist, then classify.  A successful submission runs in two
    steps.  The first reads the average from the table as it stood, and
    appends one record to the table: status [Submitted], [brokerId] the
    acting broker, every other property as in the payload.  The second
    builds the response in the world the first one left, where the record
    is already stored, and classifies the amount against the average read
    by the first step, the one of the table without the new record.  When
    the first step fails there is no second step and no response. *)
Theorem record_persisted_before_classification average_of user body
  (w w' : World) resp
  (Hrun : post average_of user body w = (Returned resp, w')) :
  (∃ avg echo row,
     post_persist average_of user body w = (Returned (avg, echo), w')
     ∧ table w' = (table w ++ [row])%list
     ∧ task row = None
     ∧ attributes row !! "status" = Some (VApplicationStatus Submitted)
     ∧ attributes row !! "brokerId" = Some (VId (id user))
     ∧ attributes row !! "loanAmount"
       = Some (VNumber (Payload.loanAmount body))
     ∧ (∀ k, k ≠ "status" → k ≠ "brokerId" →
          attributes row !! k = Payload.object body !! k)
     ∧ post_respond body avg echo w' = (Returned resp, w')
     ∧ avg = average_of (table w))
  ∧ PostResponse.message resp =
    "Loan amount is " ++
    (if Js.gt (Payload.loanAmount body) (average_of (table w)) then "above"
     else if Js.lt (Payload.loanAmount body) (average_of (table w))
          then "below" else "at") ++
    " average"
  ∧ (∀ (w0 w1 : World) e,
       post_persist average_of user body w0 = (Threw e, w1) →
       post average_of user body w0 = (Threw e, w1)).
Proof.
  split; [|split].
  - pose proof (post_inv _ _ _ _ _ _ Hrun) as (avg & echo & Hp & Hr).
    pose proof (post_persist_inv _ _ _ _ _ _ _ Hp) as (Havg & _ & Ht).
    exists avg, echo. eexists. split; [exact Hp|]. split; [exact Ht|].
    simpl. split; [reflexivity|]. split.
    { rewrite lookup_insert_ne by discriminate. apply lookup_insert_eq. }
    split; [apply lookup_insert_eq|]. split.
    { rewrite !lookup_insert_ne by discriminate.
      unfold Payload.object. apply lookup_insert_eq. }
    split; [|split; [exact Hr | exact Havg]].
    intros k Hs Hb. rewrite !lookup_insert_ne by congruence. reflexivity.
  - rewrite (post_response _ _ _ _ _ _ Hrun). reflexivity.
  - intros w0 w1 e Hp. unfold post. unfold mbind, M_bind. rewrite Hp.
    reflexivity.
Qed.

(** Where the echo and the message agree.  In the response of a
    successful submission a
    null [loanAmount] comes with the message "Loan amount is at average",
    and the messages "Loan amount is above average" and "Loan amount is
    below average" come with the submitted amount echoed.  When the
    submitted amount and the average are comparable, that is neither is a
    NaN, the [loanAmount] is null exactly when the message is "Loan amount
    is at average". *)
Theorem null_echo_iff_at_average_when_comparable average_of user body
  (w w' : World) resp
  (Hrun : post average_of user body w = (Returned resp, w')) :
  (PostResponse.loanAmount resp = None →
     PostResponse.message resp = "Loan amount is at average")
  ∧ (PostResponse.message resp = "Loan amount is above average"
     ∨ PostResponse.message resp = "Loan amount is below average" →
     PostResponse.loanAmount resp = Some (Payload.loanAmount body))
  ∧ (Js.comparable (Payload.loanAmount body) (average_of (table w)) →
     (PostResponse.loanAmount resp = None ↔
      PostResponse.message resp = "Loan amount is at average")).
Proof.
  rewrite (post_response _ _ _ _ _ _ Hrun). simpl.
  set (b := Payload.loanAmount body). set (avg := average_of (table w)).
  assert (Js.strict_neq b avg = false →
          Js.gt b avg = false ∧ Js.lt b avg = false) as Heq.
  { unfold Js.strict_neq. intros H. apply negb_false_iff in H.
    destruct (strict_eq_not_lt _ _ H). auto. }
  split; [|split].
  - destruct (Js.strict_neq b avg) eqn:Hne; [discriminate|].
    destruct (Heq eq_refl) as [-> ->]. reflexivity.
  - destruct (Js.strict_neq b avg) eqn:Hne; [reflexivity|].
    destruct (Heq eq_refl) as [-> ->]. intros [H|H]; discriminate H.
  - intros Hcmp. split.
    + destruct (Js.strict_neq b avg) eqn:Hne; [discriminate|].
      destruct (Heq eq_refl) as [-> ->]. reflexivity.
    + destruct (comparable_trichotomy _ _ Hcmp) as [Hgt|[Hlt|He]].
      * rewrite Hgt. discriminate.
      * destruct (lt_not_gt _ _ Hlt) as [-> _]. rewrite Hlt. discriminate.
      * unfold Js.strict_neq. unfold Js.strict_eq in He. rewrite He.
        reflexivity.
Qed.

(** C10.  The code breaks the claim on a payload whose loan amount is a
    NaN, whatever the table and whatever average the aggregate gives.  Line
    151 finds the amount different ([!==]) from the average and echoes it,
    so [loanAmount] is not null; lines 156-162 find it neither greater nor
    less and fall into the final [else], so the message is "Loan amount is
    at average".  The response therefore carries the at-average message
    without a null [loanAmount]. *)
Theorem nan_amount_is_echoed_at_average average_of user fields
  (w w' : World) resp
  (Hrun : post average_of user (Payload.mk Js.NaN fields) w
          = (Returned resp, w')) :
  resp = PostResponse.mk true (Some Js.NaN) "Loan amount is at average"
  ∧ ¬ (PostResponse.loanAmount resp = None ↔
       PostResponse.message resp = "Loan amount is at average").
Proof.
  rewrite (post_response _ _ _ _ _ _ Hrun). simpl.
  unfold Js.strict_neq, Js.gt, Js.lt, SFeqb, SFltb, Js.NaN. simpl.
  assert (SFcompare (average_of (table w)) S754_nan = None) as ->
    by (destruct (average_of (table w)); reflexivity).
  simpl. split; [reflexivity|].
  intros [_ H]. specialize (H eq_refl). discriminate H.
Qed.


(** ** The theorems at work on the sample data *)

(** Broker 1 lists with a date range and two statuses: the options are
    composed, and the rows found in the sample table are broker 1's. *)
Lemma list_scoped_to_actor_witness :
  find_options sample_message broker_a query_two_statuses sample_world
  = (Returned options_two_statuses,
     mkWorld sample_table [find_where options_two_statuses] [])
  ∧ find_where options_two_statuses !! "brokerId" = Some (Equals (VId 1))
  ∧ (∀ a, a ∈ query_rows options_two_statuses sample_table →
       owned_by 1 a ∧ ∀ t, task a = Some t → assigned_to 1 t)
  ∧ (∀ a, owned_by 2 a →
       where_matches (find_where options_two_statuses) (attributes a)
       = false).
Proof.
  assert (find_options sample_message broker_a query_two_statuses sample_world
          = (Returned options_two_statuses,
             mkWorld sample_table [find_where options_two_statuses] []))
    as Hrun by (vm_compute; reflexivity).
  split; [exact Hrun|].
  destruct (list_scoped_to_actor _ _ _ _ _ _ Hrun)
    as (Hb & _ & Hother & _ & Hrows & _).
  split; [exact Hb|]. split; [exact (Hrows sample_table)|].
  intros a Ha. apply (Hother 2 a); [discriminate | exact Ha].
Defined.

(** The completed listing of broker 1 has a required include; the pending
    listing has an optional one. *)
Lemma completed_flag_selects_join_witness :
  (find_options sample_message broker_a query_completed sample_world
   = (Returned options_completed, sample_world)
   ∧ ∀ a, ¬ has_task Completed 1 a → select_row options_completed a = None)
  ∧ (find_options sample_message broker_a query_pending sample_world
     = (Returned options_pending, sample_world)
     ∧ ∀ a, where_matches (find_where options_pending) (attributes a) = true →
            ¬ has_task Pending 1 a →
            select_row options_pending a
            = Some (mkApplication (attributes a) None)).
Proof.
  assert (find_options sample_message broker_a query_completed sample_world
          = (Returned options_completed, sample_world))
    as Hc by (vm_compute; reflexivity).
  assert (find_options sample_message broker_a query_pending sample_world
          = (Returned options_pending, sample_world))
    as Hp by (vm_compute; reflexivity).
  split; (split; [assumption|]).
  - destruct (completed_flag_selects_join _ _ _ _ _ _ Hc) as [Hyes _].
    destruct (Hyes eq_refl) as (_ & _ & Hdrop & _). exact Hdrop.
  - destruct (completed_flag_selects_join _ _ _ _ _ _ Hp) as [_ Hno].
    destruct (Hno (or_introl eq_refl)) as (_ & _ & Hkeep & _). exact Hkeep.
Defined.

(** A minimum of 5000 with a maximum of 3000 is refused. *)
Lemma inverted_range_is_bad_request_witness :
  ListRequest.minimumDate query_inverted = Some 5000
  ∧ ListRequest.maximumDate query_inverted = Some 3000
  ∧ (3000 < 5000)%Z
  ∧ find sample_message broker_a query_inverted sample_world
    = (Threw (HttpException sample_message BAD_REQUEST), sample_world).
Proof.
  split; [reflexivity|]. split; [reflexivity|]. split; [lia|].
  apply (inverted_range_is_bad_request sample_message broker_a
           query_inverted sample_world 5000 3000);
    [reflexivity | reflexivity | lia].
Defined.

(** With two statuses supplied the [where] of broker 1 has the membership
    condition. *)
Lemma status_filter_witness :
  find_options sample_message broker_a query_two_statuses sample_world
  = (Returned options_two_statuses,
     mkWorld sample_table [find_where options_two_statuses] [])
  ∧ find_where options_two_statuses !! "status"
    = Some (OpIn [VApplicationStatus Submitted; VApplicationStatus Approved]).
Proof.
  assert (find_options sample_message broker_a query_two_statuses sample_world
          = (Returned options_two_statuses,
             mkWorld sample_table [find_where options_two_statuses] []))
    as Hrun by (vm_compute; reflexivity).
  split; [exact Hrun|].
  destruct (status_filter _ _ _ _ _ _ Hrun) as [Hsome _].
  destruct (Hsome [Submitted; Approved] eq_refl) as [Hst _];
    [discriminate | exact Hst].
Defined.

(** The sample queries have valid bounds, so their options are composed,
    equally from the sample world and from the world after a submission. *)
Lemma composition_deterministic_witness :
  valid_range query_two_statuses
  ∧ ∃ opts,
      (find_options sample_message broker_a query_two_statuses
         sample_world).1 = Returned opts
      ∧ (find_options sample_message broker_a query_two_statuses
           (world_after 120000)).1 = Returned opts.
Proof.
  assert (valid_range query_two_statuses) as Hvalid.
  { intros lo hi [= <-] [= <-]. lia. }
  split; [exact Hvalid|].
  destruct (composition_deterministic sample_message broker_a
              query_two_statuses sample_world (world_after 120000) Hvalid)
    as (opts & H1 & H2 & _).
  exists opts. split; [exact H1 | exact H2].
Defined.

(** With an empty status list broker 1 finds nothing in the sample table,
    where the pending listing finds three rows. *)
Lemma empty_status_list_matches_nothing_witness :
  find_options sample_message broker_a query_no_statuses sample_world
  = (Returned options_no_statuses,
     mkWorld sample_table [find_where options_no_statuses] [])
  ∧ ListRequest.status query_no_statuses = Some []
  ∧ query_rows options_no_statuses sample_table = []
  ∧ length (query_rows options_pending sample_table) = 3%nat.
Proof.
  assert (find_options sample_message broker_a query_no_statuses sample_world
          = (Returned options_no_statuses,
             mkWorld sample_table [find_where options_no_statuses] []))
    as Hrun by (vm_compute; reflexivity).
  split; [exact Hrun|]. split; [reflexivity|].
  destruct (empty_status_list_matches_nothing _ _ _ _ _ _ Hrun eq_refl)
    as (_ & _ & Hrows & _).
  split; [exact (Hrows sample_table) | vm_compute; reflexivity].
Defined.

(** The average of the sample table is 100000.  A submission of 120000 is
    echoed; one of 100000 is not. *)
Lemma echo_suppressed_at_average_witness :
  (post (mean_loan_amount (Js.of_Z 0)) broker_a (payload 120000) sample_world
   = (Returned (PostResponse.mk true (Some (Js.of_Z 120000))
                  "Loan amount is above average"),
      world_after 120000)
   ∧ Js.strict_neq (Js.of_Z 120000)
       (mean_loan_amount (Js.of_Z 0) sample_table) = true
   ∧ PostResponse.loanAmount
       (PostResponse.mk true (Some (Js.of_Z 120000))
          "Loan amount is above average")
     = Some (Payload.loanAmount (payload 120000)))
  ∧ (post (mean_loan_amount (Js.of_Z 0)) broker_a (payload 100000)
       sample_world
     = (Returned (PostResponse.mk true None "Loan amount is at average"),
        world_after 100000)
     ∧ Js.strict_eq (Js.of_Z 100000)
         (mean_loan_amount (Js.of_Z 0) sample_table) = true
     ∧ PostResponse.loanAmount
         (PostResponse.mk true None "Loan amount is at average") = None).
Proof.
  assert (post (mean_loan_amount (Js.of_Z 0)) broker_a (payload 120000)
            sample_world
          = (Returned (PostResponse.mk true (Some (Js.of_Z 120000))
                         "Loan amount is above average"),
             world_after 120000)) as Habove by (vm_compute; reflexivity).
  assert (post (mean_loan_amount (Js.of_Z 0)) broker_a (payload 100000)
            sample_world
          = (Returned (PostResponse.mk true None "Loan amount is at average"),
             world_after 100000)) as Hat by (vm_compute; reflexivity).
  split; (split; [assumption|]).
  - assert (Js.strict_neq (Js.of_Z 120000)
              (mean_loan_amount (Js.of_Z 0) sample_table) = true) as Hne
      by (vm_compute; reflexivity).
    split; [exact Hne|].
    destruct (echo_suppressed_at_average _ _ _ _ _ _ Habove) as [Hecho _].
    exact (Hecho Hne).
  - assert (Js.strict_eq (Js.of_Z 100000)
              (mean_loan_amount (Js.of_Z 0) sample_table) = true) as He
      by (vm_compute; reflexivity).
    split; [exact He|].
    destruct (echo_suppressed_at_average _ _ _ _ _ _ Hat) as [_ Hnull].
    exact (Hnull He).
Defined.

(** A submission of 80000 against the sample average is below it. *)
Lemma message_classifies_amount_witness :
  post (mean_loan_amount (Js.of_Z 0)) broker_a (payload 80000) sample_world
  = (Returned (PostResponse.mk true (Some (Js.of_Z 80000))
                 "Loan amount is below average"),
     world_after 80000)
  ∧ Js.lt (Js.of_Z 80000) (mean_loan_amount (Js.of_Z 0) sample_table) = true
  ∧ PostResponse.message
      (PostResponse.mk true (Some (Js.of_Z 80000))
         "Loan amount is below average")
    = "Loan amount is below average".
Proof.
  assert (post (mean_loan_amount (Js.of_Z 0)) broker_a (payload 80000)
            sample_world
          = (Returned (PostResponse.mk true (Some (Js.of_Z 80000))
                         "Loan amount is below average"),
             world_after 80000)) as Hrun by (vm_compute; reflexivity).
  assert (Js.lt (Js.of_Z 80000)
            (mean_loan_amount (Js.of_Z 0) sample_table) = true) as Hlt
    by (vm_compute; reflexivity).
  split; [exact Hrun|]. split; [exact Hlt|].
  destruct (message_classifies_amount _ _ _ _ _ _ Hrun)
    as (_ & _ & Hbelow & _).
  exact (Hbelow Hlt).
Defined.

(** A submission of 120000 leaves the record in the table and is classified
    against 100000, the average of the four earlier records; the average of
    the five records then stored is 104000. *)
Lemma record_persisted_before_classification_witness :
  post (mean_loan_amount (Js.of_Z 0)) broker_a (payload 120000) sample_world
  = (Returned (PostResponse.mk true (Some (Js.of_Z 120000))
                 "Loan amount is above average"),
     world_after 120000)
  ∧ (∃ avg echo row,
       post_persist (mean_loan_amount (Js.of_Z 0)) broker_a (payload 120000)
         sample_world = (Returned (avg, echo), world_after 120000)
       ∧ table (world_after 120000) = (sample_table ++ [row])%list
       ∧ attributes row !! "status" = Some (VApplicationStatus Submitted)
       ∧ attributes row !! "brokerId" = Some (VId 1)
       ∧ avg = Js.of_Z 100000)
  ∧ mean_loan_amount (Js.of_Z 0) (table (world_after 120000))
    = Js.of_Z 104000.
Proof.
  assert (post (mean_loan_amount (Js.of_Z 0)) broker_a (payload 120000)
            sample_world
          = (Returned (PostResponse.mk true (Some (Js.of_Z 120000))
                         "Loan amount is above average"),
             world_after 120000)) as Hrun by (vm_compute; reflexivity).
  split; [exact Hrun|]. split; [|vm_compute; reflexivity].
  destruct (record_persisted_before_classification _ _ _ _ _ _ Hrun)
    as ((avg & echo & row & Hp & Ht & _ & Hs & Hb & _ & _ & _ & Havg) & _).
  exists avg, echo, row.
  split; [exact Hp|]. split; [exact Ht|]. split; [exact Hs|].
  split; [exact Hb|]. rewrite Havg. vm_compute. reflexivity.
Defined.

(** Against the sample average, which is a number, a submission of 100000
    has a null echo and the message for the average. *)
Lemma null_echo_iff_at_average_when_comparable_witness :
  post (mean_loan_amount (Js.of_Z 0)) broker_a (payload 100000) sample_world
  = (Returned (PostResponse.mk true None "Loan amount is at average"),
     world_after 100000)
  ∧ Js.comparable (Payload.loanAmount (payload 100000))
      (mean_loan_amount (Js.of_Z 0) (table sample_world))
  ∧ (PostResponse.loanAmount
       (PostResponse.mk true None "Loan amount is at average") = None ↔
     PostResponse.message
       (PostResponse.mk true None "Loan amount is at average")
     = "Loan amount is at average").
Proof.
  assert (post (mean_loan_amount (Js.of_Z 0)) broker_a (payload 100000)
            sample_world
          = (Returned (PostResponse.mk true None "Loan amount is at average"),
             world_after 100000)) as Hrun by (vm_compute; reflexivity).
  assert (Js.comparable (Payload.loanAmount (payload 100000))
            (mean_loan_amount (Js.of_Z 0) (table sample_world))) as Hcmp
    by (vm_compute; eexists; reflexivity).
  split; [exact Hrun|]. split; [exact Hcmp|].
  destruct (null_echo_iff_at_average_when_comparable _ _ _ _ _ _ Hrun)
    as (_ & _ & Hiff).
  exact (Hiff Hcmp).
Defined.

(** A payload with a NaN amount, submitted against the sample table whose
    average is 100000, is answered with the amount echoed and the message
    for the average. *)
Lemma nan_amount_is_echoed_at_average_witness :
  post (mean_loan_amount (Js.of_Z 0)) broker_a
    (Payload.mk Js.NaN {[ "term" := VId 36 ]}) sample_world
  = (Returned (PostResponse.mk true (Some Js.NaN)
                 "Loan amount is at average"),
     mkWorld
       (sample_table ++
        [mkApplication
           (submitted_values broker_a
              (Payload.mk Js.NaN {[ "term" := VId 36 ]})) None])
       [] [])
  ∧ mean_loan_amount (Js.of_Z 0) (table sample_world) = Js.of_Z 100000
  ∧ ¬ (PostResponse.loanAmount
         (PostResponse.mk true (Some Js.NaN) "Loan amount is at average")
       = None ↔
       PostResponse.message
         (PostResponse.mk true (Some Js.NaN) "Loan amount is at average")
       = "Loan amount is at average").
Proof.
  assert (post (mean_loan_amount (Js.of_Z 0)) broker_a
            (Payload.mk Js.NaN {[ "term" := VId 36 ]}) sample_world
          = (Returned (PostResponse.mk true (Some Js.NaN)
                         "Loan amount is at average"),
             mkWorld
               (sample_table ++
                [mkApplication
                   (submitted_values broker_a
                      (Payload.mk Js.NaN {[ "term" := VId 36 ]})) None])
               [] [])) as Hrun by (vm_compute; reflexivity).
  split; [exact Hrun|]. split; [vm_compute; reflexivity|].
  destruct (nan_amount_is_echoed_at_average _ _ _ _ _ _ Hrun) as [_ Hnot].
  exact Hnot.
Defined.


(** ** Further properties of the list operation *)

Lemma find_options_with_createDateFilter msg :
  find_options msg = find_options_with (createDateFilter msg).
Proof. reflexivity. Qed.

Lemma find_with_createDateFilter msg :
  find msg = find_with (createDateFilter msg).
Proof. reflexivity. Qed.

(** Whatever the date-filter helper throws, and for whatever reason, [find]
    answers with an [HttpException] of status [BAD_REQUEST] carrying the
    message of the thrown error.  Nothing is logged and the repository is not
    called: the world is the one the helper left. *)
Theorem helper_failure_is_bad_request helper user query (w w1 : World) e
  (Hthrow : helper "createdAt" (ListRequest.minimumDate query)
              (ListRequest.maximumDate query) w = (Threw e, w1)) :
  find_options_with helper user query w
  = (Threw (HttpException (exception_message e) BAD_REQUEST), w1)
  ∧ find_with helper user query w
    = (Threw (HttpException (exception_message e) BAD_REQUEST), w1).
Proof.
  assert (find_options_with helper user query w
          = (Threw (HttpException (exception_message e) BAD_REQUEST), w1))
    as Hopts.
  { unfold find_options_with. unfold mbind at 1, M_bind at 1, try_catch.
    rewrite Hthrow. reflexivity. }
  split; [exact Hopts|].
  unfold find_with. unfold mbind at 1, M_bind at 1. rewrite Hopts.
  reflexivity.
Qed.

(** Which property wins in the composed [where].  The [status] parameter,
    when supplied, decides the [status] property.  Otherwise a property of
    the date filter is taken as it is, [brokerId] included: the filter is
    spread after the actor's [brokerId], which therefore stands only when
    the filter does not name [brokerId].  No other property appears. *)
Theorem where_property_precedence helper user query (w w1 : World) df
  (Hdf : helper "createdAt" (ListRequest.minimumDate query)
           (ListRequest.maximumDate query) w = (Returned df, w1)) :
  ∃ opts w',
    find_options_with helper user query w = (Returned opts, w')
    ∧ (∀ statuses, ListRequest.status query = Some statuses →
         find_where opts !! "status"
         = Some (OpIn (VApplicationStatus <$> statuses)))
    ∧ (ListRequest.status query = None →
         find_where opts !! "status" = df !! "status")
    ∧ (∀ c, df !! "brokerId" = Some c →
         find_where opts !! "brokerId" = Some c)
    ∧ (df !! "brokerId" = None →
         find_where opts !! "brokerId" = Some (Equals (VId (id user))))
    ∧ (∀ k, k ≠ "status" → k ≠ "brokerId" →
         find_where opts !! k = df !! k).
Proof.
  assert (∀ k, (df ∪ ({[ "brokerId" := Equals (VId (id user)) ]}
                       : WhereOptions)) !! k
               = match df !! k with
                 | Some c => Some c
                 | None => if decide (k = "brokerId")
                           then Some (Equals (VId (id user))) else None
                 end) as Hbase.
  { intros k. destruct (df !! k) as [c|] eqn:Hk.
    - apply lookup_union_Some_l. exact Hk.
    - rewrite lookup_union_r by exact Hk.
      destruct (decide (k = "brokerId")) as [->|Hne].
      + apply lookup_singleton_eq.
      + apply lookup_singleton_ne. congruence. }
  unfold find_options_with, spread_over.
  unfold mbind at 1, M_bind at 1, try_catch. rewrite Hdf.
  destruct (ListRequest.status query) as [statuses|]; run_monad;
    eexists _, _; (split; [reflexivity|]); simpl.
  - split; [intros l [= <-]; apply lookup_insert_eq|].
    split; [discriminate|]. split; [|split].
    + intros c Hc. rewrite lookup_insert_ne by discriminate.
      rewrite Hbase, Hc. reflexivity.
    + intros Hc. rewrite lookup_insert_ne by discriminate.
      rewrite Hbase, Hc. reflexivity.
    + intros k Hs Hb. rewrite lookup_insert_ne by congruence.
      rewrite Hbase. destruct (df !! k); [reflexivity|].
      destruct (decide (k = "brokerId")); [contradiction | reflexivity].
  - split; [discriminate|]. split; [|split; [|split]].
    + intros _. rewrite Hbase. destruct (df !! "status"); reflexivity.
    + intros c Hc. rewrite Hbase, Hc. reflexivity.
    + intros Hc. rewrite Hbase, Hc. reflexivity.
    + intros k Hs Hb. rewrite Hbase. destruct (df !! k); [reflexivity|].
      destruct (decide (k = "brokerId")); [contradiction | reflexivity].
Qed.

Lemma storage_call_rejects {A : Type}
  (op : list Application → A * list Application) (w : World) m rest :
  faults w = Some m :: rest →
  storage_call op w
  = (Threw (StorageFailure m), mkWorld (table w) (console w) rest).
Proof. intros Hf. unfold storage_call. rewrite Hf. reflexivity. Qed.

Lemma storage_call_succeeds {A : Type}
  (op : list Application → A * list Application) (w : World) :
  storage_up 1 w →
  storage_call op w
  = (Returned (op (table w)).1,
     mkWorld (op (table w)).2 (console w) (tail (faults w))).
Proof.
  intros Hup. unfold storage_call, storage_up in *.
  destruct (faults w) as [|[m|] rest]; destruct (op (table w)); simpl;
    try reflexivity.
  exfalso. apply (Hup m). simpl. apply list_elem_of_here.
Qed.

(** A rejection of [findAll] is not caught: [find] fails with the storage
    failure itself, not with a bad request.  By then the [where] has been
    logged when a status list was supplied; the table is as it was. *)
Theorem storage_failure_propagates msg user query (w w1 : World) opts m rest
  (Hrun : find_options msg user query w = (Returned opts, w1))
  (Hfault : faults w = Some m :: rest) :
  find msg user query w
  = (Threw (StorageFailure m), mkWorld (table w) (console w1) rest).
Proof.
  pose proof (find_options_inv _ _ _ _ _ _ Hrun)
    as (_ & _ & _ & _ & Ht & Hf & _).
  unfold find. unfold mbind at 1, M_bind at 1. rewrite Hrun.
  unfold mbind, M_bind, findAll.
  rewrite (storage_call_rejects _ w1 m rest) by congruence.
  rewrite Ht. reflexivity.
Qed.

(** When the options are composed and the repository answers, [find]
    returns: [success] is true and the applications are the rows the query
    selects from the table.  Exactly one storage call is used, and the table
    is the same afterwards. *)
Theorem find_returns_selected_rows msg user query (w w1 : World) opts
  (Hrun : find_options msg user query w = (Returned opts, w1))
  (Hup : storage_up 1 w) :
  find msg user query w
  = (Returned (ListResponse.mk true (query_rows opts (table w))),
     mkWorld (table w) (console w1) (tail (faults w))).
Proof.
  pose proof (find_options_inv _ _ _ _ _ _ Hrun)
    as (_ & _ & _ & _ & Ht & Hf & _).
  unfold find. unfold mbind at 1, M_bind at 1. rewrite Hrun.
  unfold mbind, M_bind, findAll.
  rewrite storage_call_succeeds
    by (unfold storage_up in *; rewrite Hf; exact Hup).
  simpl. rewrite Ht, Hf. reflexivity.
Qed.

Lemma join_includes_None (incs : list IncludeOptions) :
  foldl (λ acc inc, acc ≫= join_include inc) None incs = None.
Proof. induction incs as [|inc incs IH]; [reflexivity | exact IH]. Qed.

Lemma join_includes_Some (incs : list IncludeOptions) (a a' : Application) :
  foldl (λ acc inc, acc ≫= join_include inc) (Some a) incs = Some a' →
  attributes a' = attributes a ∧ (task a' = None ∨ task a' = task a).
Proof.
  revert a. induction incs as [|inc incs IH]; intros a; simpl.
  - intros [= <-]. auto.
  - destruct (join_include inc a) as [a1|] eqn:Hj.
    + intros H. apply IH in H as [Hattr Htask].
      pose proof (join_include_Some _ _ _ Hj) as [Hattr1 Htask1].
      split; [congruence|].
      destruct Htask as [Hn|Hs]; [left; exact Hn|].
      destruct (task a1) as [t|] eqn:Ht1.
      * destruct (Htask1 t eq_refl) as [Hta _]. right. congruence.
      * left. exact Hs.
    + rewrite join_includes_None. discriminate.
Qed.

Lemma select_row_Some (opts : FindOptions) (a a' : Application) :
  select_row opts a = Some a' →
  where_matches (find_where opts) (attributes a) = true
  ∧ attributes a' = attributes a ∧ (task a' = None ∨ task a' = task a).
Proof.
  unfold select_row.
  destruct (where_matches _ _); [|discriminate].
  intros H. split; [reflexivity|]. exact (join_includes_Some _ _ _ H).
Qed.

(** The applications of a response are rows of the table: [find] returns
    the attributes of table rows only, each at most once and in table order,
    and the task of a returned application is that row's own task or
    empty. *)
Theorem response_rows_come_from_table msg user query (w w' : World) resp
  (Hfind : find msg user query w = (Returned resp, w')) :
  sublist (attributes <$> ListResponse.applications resp)
    (attributes <$> table w)
  ∧ ∀ a', a' ∈ ListResponse.applications resp →
      ∃ a, a ∈ table w ∧ attributes a' = attributes a
           ∧ (task a' = None ∨ task a' = task a).
Proof.
  apply find_inv in Hfind as (opts & w1 & _ & ->). simpl.
  split.
  - induction (table w) as [|a rows IH]; simpl.
    + apply sublist_nil.
    + change (omap (select_row opts) (a :: rows))
        with (query_rows opts (a :: rows)).
      unfold query_rows at 1. simpl.
      destruct (select_row opts a) as [a'|] eqn:Ha; simpl.
      * destruct (select_row_Some _ _ _ Ha) as (_ & -> & _).
        apply sublist_skip. exact IH.
      * apply sublist_cons. exact IH.
  - intros a' Ha'. apply list_elem_of_omap in Ha' as (a & Hin & Ha).
    exists a. split; [exact Hin|].
    destruct (select_row_Some _ _ _ Ha) as (_ & Hattr & Htask). auto.
Qed.

Lemma query_rows_cons (opts : FindOptions) (a : Application)
  (rows : list Application) :
  query_rows opts (a :: rows)
  = match select_row opts a with
    | Some a' => a' :: query_rows opts rows
    | None => query_rows opts rows
    end.
Proof. reflexivity. Qed.

(** A listing does not depend on what other brokers own: the rows selected
    for the actor from a table are the rows selected from the actor's own
    rows of that table. *)
Theorem listing_ignores_other_brokers msg user query (w w' : World) opts
  (rows : list Application)
  (Hrun : find_options msg user query w = (Returned opts, w')) :
  query_rows opts rows
  = query_rows opts (filter (owned_by (id user)) rows).
Proof.
  pose proof (find_where_brokerId _ _ _ _ _ _ Hrun) as Hb.
  induction rows as [|a rows IH]; [reflexivity|].
  destruct (decide (owned_by (id user) a)) as [Hown|Hother].
  - rewrite filter_cons_True by exact Hown.
    rewrite !query_rows_cons, IH. reflexivity.
  - rewrite filter_cons_False by exact Hother. rewrite query_rows_cons.
    assert (select_row opts a = None) as ->; [|exact IH].
    unfold select_row.
    destruct (where_matches (find_where opts) (attributes a)) eqn:Hm;
      [|reflexivity].
    exfalso. apply Hother. unfold owned_by.
    apply cond_holds_Equals. exact (where_matches_lookup _ _ _ _ Hm Hb).
Qed.

Lemma join_include_optional inc (a : Application) :
  include_required inc = false →
  ∃ related, join_include inc a = Some (mkApplication (attributes a) related).
Proof.
  intros Hreq. unfold join_include. rewrite Hreq.
  destruct (task a) as [t|]; [destruct (include_matches inc t)|]; eauto.
Qed.

(** Without the completed flag the join drops nothing: the listing has
    exactly the table rows that satisfy the [where], in table order, each
    with its own attributes. *)
Theorem pending_listing_keeps_every_match msg user query (w w' : World) opts
  (rows : list Application)
  (Hrun : find_options msg user query w = (Returned opts, w'))
  (Hflag : Js.truthy_flag (ListRequest.completed query) = false) :
  attributes <$> query_rows opts rows
  = attributes <$>
      filter (λ a, where_matches (find_where opts) (attributes a) = true)
        rows.
Proof.
  pose proof (find_options_inv _ _ _ _ _ _ Hrun) as (_ & _ & Hinc & _).
  unfold composed_include in Hinc. rewrite Hflag in Hinc.
  induction rows as [|a rows IH]; [reflexivity|].
  rewrite query_rows_cons, (select_row_single _ _ _ Hinc).
  destruct (where_matches (find_where opts) (attributes a)) eqn:Hm.
  - rewrite filter_cons_True by exact Hm.
    destruct (join_include_optional
                (mkInclude TaskModel
                   (Some (<["assignedToBrokerId" := Equals (VId (id user))]>
                            {[ "status" := Equals (VTaskStatus Pending) ]}))
                   (Some false)) a eq_refl) as [related ->].
    rewrite !fmap_cons, IH. reflexivity.
  - rewrite filter_cons_False by (rewrite Hm; discriminate). exact IH.
Qed.

(** ** Further properties of the create operation *)

(** When reading the average is rejected, [post] fails with that storage
    failure.  [create] is not attempted: one storage call was used and the
    table has no new record. *)
Theorem average_failure_stores_nothing average_of user body (w : World)
  m rest
  (Hfault : faults w = Some m :: rest) :
  post average_of user body w
  = (Threw (StorageFailure m), mkWorld (table w) (console w) rest).
Proof.
  unfold post, post_persist, getAverageLoanAmount.
  unfold mbind, M_bind.
  rewrite (storage_call_rejects _ w m rest Hfault). reflexivity.
Qed.

(** When [create] is rejected after the average was read, [post] fails
    with that storage failure: there is no response, although the echo was
    already chosen, and the table has no new record. *)
Theorem create_failure_gives_no_response average_of user body (w : World)
  m rest
  (Hfault : faults w = None :: Some m :: rest) :
  post average_of user body w
  = (Threw (StorageFailure m), mkWorld (table w) (console w) rest).
Proof.
  unfold post, post_persist, getAverageLoanAmount, create.
  unfold mbind, M_bind, storage_call. rewrite Hfault. simpl. reflexivity.
Qed.

(** When neither storage call is rejected, [post] returns.  The table
    gains exactly one record, at its end, holding the values built from the
    payload and without a task; the console is untouched and two storage
    calls were used. *)
Theorem post_returns_and_stores_one_record average_of user body (w : World)
  (Hup : storage_up 2 w) :
  ∃ resp,
    post average_of user body w
    = (Returned resp,
       mkWorld
         (table w ++ [mkApplication (submitted_values user body) None])%list
         (console w) (drop 2 (faults w)))
    ∧ PostResponse.success resp = true.
Proof.
  unfold post, post_persist, getAverageLoanAmount, create, post_respond,
    submitted_values.
  unfold mbind, M_bind, storage_call, storage_up in *.
  destruct (faults w) as [|[m|] [|[m'|] rest]] eqn:Hf; simpl in *;
    try (exfalso; apply (Hup m); repeat constructor; fail);
    try (exfalso; apply (Hup m'); repeat constructor; fail);
    run_monad; eexists; split; reflexivity.
Qed.

(** When the submitted amount and the average are not comparable, as when
    the average is a NaN, the response echoes the amount and says "Loan
    amount is at average". *)
Theorem unordered_amount_is_reported_at_average average_of user body
  (w w' : World) resp
  (Hrun : post average_of user body w = (Returned resp, w'))
  (Hunordered : ¬ Js.comparable (Payload.loanAmount body)
                    (average_of (table w))) :
  resp = PostResponse.mk true (Some (Payload.loanAmount body))
           "Loan amount is at average".
Proof.
  rewrite (post_response _ _ _ _ _ _ Hrun).
  unfold Js.comparable in Hunordered.
  unfold Js.strict_neq, Js.gt, Js.lt, SFeqb, SFltb.
  rewrite (SFcompare_antisym (Payload.loanAmount body) (average_of (table w))).
  destruct (SFcompare (Payload.loanAmount body) (average_of (table w)))
    as [c|] eqn:Hc.
  - exfalso. apply Hunordered. eauto.
  - reflexivity.
Qed.

(** A stored record counts for the next submission: of two submissions in
    a row, the second is classified against the average of the table with
    the first one's record in it, and both records end up in the table in
    the order of submission. *)
Theorem second_submission_sees_first average_of user1 body1 user2 body2
  (w w1 w2 : World) resp1 resp2
  (Hfirst : post average_of user1 body1 w = (Returned resp1, w1))
  (Hsecond : post average_of user2 body2 w1 = (Returned resp2, w2)) :
  let row1 := mkApplication (submitted_values user1 body1) None in
  let row2 := mkApplication (submitted_values user2 body2) None in
  table w2 = (table w ++ [row1; row2])%list
  ∧ PostResponse.loanAmount resp2
    = (if Js.strict_neq (Payload.loanAmount body2)
            (average_of (table w ++ [row1])%list)
       then Some (Payload.loanAmount body2) else None)
  ∧ PostResponse.message resp2
    = "Loan amount is " ++
      (if Js.gt (Payload.loanAmount body2)
            (average_of (table w ++ [row1])%list) then "above"
       else if Js.lt (Payload.loanAmount body2)
                 (average_of (table w ++ [row1])%list)
            then "below" else "at") ++
      " average".
Proof.
  intros row1 row2.
  pose proof (post_inv _ _ _ _ _ _ Hfirst) as (a1 & e1 & Hp1 & _).
  pose proof (post_persist_inv _ _ _ _ _ _ _ Hp1) as (_ & _ & Ht1).
  pose proof (post_inv _ _ _ _ _ _ Hsecond) as (a2 & e2 & Hp2 & _).
  pose proof (post_persist_inv _ _ _ _ _ _ _ Hp2) as (_ & _ & Ht2).
  rewrite (post_response _ _ _ _ _ _ Hsecond). simpl.
  fold (submitted_values user1 body1) in Ht1.
  fold (submitted_values user2 body2) in Ht2.
  rewrite Ht2, Ht1. rewrite <- app_assoc. auto.
Qed.

(** ** Listing after a submission *)

Lemma find_after_post msg average_of poster body user query
  (w w1 w2 : World) r resp :
  post average_of poster body w = (Returned r, w1) →
  find msg user query w1 = (Returned resp, w2) →
  ∃ opts w',
    find_options msg user query w = (Returned opts, w')
    ∧ ListResponse.applications resp
      = (query_rows opts (table w) ++
         match select_row opts
                 (mkApplication (submitted_values poster body) None) with
         | Some row => [row]
         | None => []
         end)%list.
Proof.
  intros Hpost Hfind.
  apply post_inv in Hpost as (avg & echo & Hp & _).
  apply post_persist_inv in Hp as (_ & _ & Ht).
  fold (submitted_values poster body) in Ht.
  apply find_inv in Hfind as (opts & w1' & Hopts & ->).
  pose proof (find_options_inv _ _ _ _ _ _ Hopts) as (df & Hdf & _).
  pose proof (createDateFilter_any_world _ _ _ _ _ w _ Hdf) as Hdf0.
  rewrite (find_options_run _ _ _ _ _ Hdf) in Hopts.
  injection Hopts as <- _.
  eexists _, _. split; [exact (find_options_run _ _ _ _ _ Hdf0)|].
  simpl. rewrite Ht. unfold query_rows. rewrite omap_app. simpl.
  destruct (select_row _ _); reflexivity.
Qed.

(** A broker's own submission shows up in their listing.  After a
    successful submission, the listing of the same broker without date
    bounds and without the completed flag, with the status parameter omitted
    or including [Submitted], is the listing of the table as it was followed
    by the new record, with an empty task field. *)
Theorem own_submission_is_listed msg average_of user body query
  (w w1 w2 : World) r resp
  (Hpost : post average_of user body w = (Returned r, w1))
  (Hmin : ListRequest.minimumDate query = None)
  (Hmax : ListRequest.maximumDate query = None)
  (Hflag : Js.truthy_flag (ListRequest.completed query) = false)
  (Hstatus : ∀ statuses, ListRequest.status query = Some statuses →
               Submitted ∈ statuses)
  (Hfind : find msg user query w1 = (Returned resp, w2)) :
  ∃ opts w',
    find_options msg user query w = (Returned opts, w')
    ∧ ListResponse.applications resp
      = (query_rows opts (table w)
         ++ [mkApplication (submitted_values user body) None])%list.
Proof.
  destruct (find_after_post _ _ _ _ _ _ _ _ _ _ _ Hpost Hfind)
    as (opts & w' & Hopts & Happs).
  exists opts, w'. split; [exact Hopts|]. rewrite Happs. f_equal.
  pose proof (find_options_inv _ _ _ _ _ _ Hopts)
    as (df & Hdf & Hinc & Hw & _).
  rewrite Hmin, Hmax in Hdf. unfold createDateFilter in Hdf.
  run_monad. injection Hdf as <-.
  unfold composed_include in Hinc. rewrite Hflag in Hinc.
  rewrite (select_row_single _ _ _ Hinc). simpl.
  assert (where_matches (find_where opts) (submitted_values user body) = true)
    as ->; [|reflexivity].
  rewrite Hw. rewrite (left_id_L ∅ (∪)).
  assert (where_matches
            ({[ "brokerId" := Equals (VId (id user)) ]} : WhereOptions)
            (submitted_values user body) = true) as Hbase.
  { apply where_matches_singleton, cond_holds_Equals.
    unfold submitted_values. apply lookup_insert_eq. }
  destruct (ListRequest.status query) as [statuses|] eqn:Hq; [|exact Hbase].
  apply where_matches_insert.
  { apply lookup_singleton_ne. discriminate. }
  split; [|exact Hbase].
  apply cond_holds_OpIn. exists (VApplicationStatus Submitted). split.
  - unfold submitted_values. rewrite lookup_insert_ne by discriminate.
    apply lookup_insert_eq.
  - apply list_elem_of_fmap. exists Submitted.
    split; [reflexivity | exact (Hstatus statuses eq_refl)].
Qed.

(** A fresh submission is never in a completed listing: it has no task,
    and the completed listing requires one.  Whoever asks and whatever the
    other parameters, the listing after the submission is the listing of the
    table as it was. *)
Theorem fresh_submission_not_in_completed_listing msg average_of poster body
  user query (w w1 w2 : World) r resp
  (Hpost : post average_of poster body w = (Returned r, w1))
  (Hflag : Js.truthy_flag (ListRequest.completed query) = true)
  (Hfind : find msg user query w1 = (Returned resp, w2)) :
  ∃ opts w',
    find_options msg user query w = (Returned opts, w')
    ∧ ListResponse.applications resp = query_rows opts (table w).
Proof.
  destruct (find_after_post _ _ _ _ _ _ _ _ _ _ _ Hpost Hfind)
    as (opts & w' & Hopts & Happs).
  exists opts, w'. split; [exact Hopts|]. rewrite Happs.
  pose proof (find_options_inv _ _ _ _ _ _ Hopts) as (_ & _ & Hinc & _).
  unfold composed_include in Hinc. rewrite Hflag in Hinc.
  rewrite (select_row_single _ _ _ Hinc). simpl.
  destruct (where_matches _ _); apply app_nil_r.
Qed.

(** A submission by one broker leaves every other broker's listing as it
    was, whatever the query. *)
Theorem other_broker_submission_is_invisible msg average_of poster body
  user query (w w1 w2 : World) r resp
  (Hother : id poster ≠ id user)
  (Hpost : post average_of poster body w = (Returned r, w1))
  (Hfind : find msg user query w1 = (Returned resp, w2)) :
  ∃ opts w',
    find_options msg user query w = (Returned opts, w')
    ∧ ListResponse.applications resp = query_rows opts (table w).
Proof.
  destruct (find_after_post _ _ _ _ _ _ _ _ _ _ _ Hpost Hfind)
    as (opts & w' & Hopts & Happs).
  exists opts, w'. split; [exact Hopts|]. rewrite Happs.
  pose proof (find_where_brokerId _ _ _ _ _ _ Hopts) as Hb.
  unfold select_row. simpl.
  destruct (where_matches (find_where opts) (submitted_values poster body))
    eqn:Hm; [|apply app_nil_r].
  exfalso. pose proof (where_matches_lookup _ _ _ _ Hm Hb) as Hc.
  apply cond_holds_Equals in Hc. unfold submitted_values in Hc.
  rewrite lookup_insert_eq in Hc. congruence.
Qed.

(** ** More on what a listing holds *)

(** With a status list supplied, every application of the response has one
    of the supplied statuses. *)
Theorem listed_status_is_requested msg user query (w w' : World) resp
  statuses
  (Hfind : find msg user query w = (Returned resp, w'))
  (Hstatus : ListRequest.status query = Some statuses) :
  ∀ a, a ∈ ListResponse.applications resp →
    ∃ s, s ∈ statuses
         ∧ attributes a !! "status" = Some (VApplicationStatus s).
Proof.
  apply find_inv in Hfind as (opts & w1 & Hopts & ->). simpl.
  pose proof (find_where_status _ _ _ _ _ _ Hopts) as Hst.
  rewrite Hstatus in Hst. simpl in Hst.
  intros a' Ha'. apply list_elem_of_omap in Ha' as (a & _ & Ha).
  destruct (select_row_Some _ _ _ Ha) as (Hm & Hattr & _).
  pose proof (where_matches_lookup _ _ _ _ Hm Hst) as Hc.
  apply cond_holds_OpIn in Hc as (x & Hx & Hin).
  apply list_elem_of_fmap in Hin as (s & -> & Hs).
  exists s. split; [exact Hs|]. rewrite Hattr. exact Hx.
Qed.

(** The completed listing is part of the listing without the flag: for
    the same actor and the same other parameters, the applications of the
    completed listing appear, in the same order, among those of the listing
    without the flag. *)
Theorem completed_listing_within_pending_listing msg user query
  (w wc wp : World) opts_c opts_p (rows : list Application)
  (Hc : find_options msg user (with_completed (Some true) query) w
        = (Returned opts_c, wc))
  (Hp : find_options msg user (with_completed None query) w
        = (Returned opts_p, wp)) :
  sublist (attributes <$> query_rows opts_c rows)
    (attributes <$> query_rows opts_p rows).
Proof.
  pose proof (find_options_inv _ _ _ _ _ _ Hc) as (dc & Hdc & Hic & Hwc & _).
  pose proof (find_options_inv _ _ _ _ _ _ Hp) as (dp & Hdp & Hip & Hwp & _).
  simpl in *. rewrite Hdc in Hdp. injection Hdp as <-.
  assert (find_where opts_c = find_where opts_p) as Hsame by congruence.
  unfold composed_include in Hic, Hip. simpl in Hic, Hip.
  induction rows as [|a rows IH]; [apply sublist_nil|].
  rewrite !query_rows_cons.
  rewrite (select_row_single _ _ _ Hic), (select_row_single _ _ _ Hip).
  rewrite Hsame.
  destruct (where_matches (find_where opts_p) (attributes a)); [|exact IH].
  destruct (join_include_optional
              (mkInclude TaskModel
                 (Some (<["assignedToBrokerId" := Equals (VId (id user))]>
                          {[ "status" := Equals (VTaskStatus Pending) ]}))
                 (Some false)) a eq_refl) as [related ->].
  destruct (join_include _ a) as [a'|] eqn:Hj.
  - apply join_include_Some in Hj as [Hattr _]. rewrite !fmap_cons.
    simpl. rewrite Hattr. apply sublist_skip. exact IH.
  - rewrite fmap_cons. apply sublist_cons. exact IH.
Qed.

(** The composed [where] is written to the console exactly when the status
    parameter is supplied, an empty list included; the line is the [where]
    handed to the query, the actor's [brokerId] in it.  Without the
    parameter nothing is written. *)
Theorem where_logged_iff_status_supplied msg user query (w w' : World) opts
  (Hrun : find_options msg user query w = (Returned opts, w')) :
  (∀ statuses, ListRequest.status query = Some statuses →
     console w' = (console w ++ [find_where opts])%list)
  ∧ (ListRequest.status query = None → console w' = console w).
Proof.
  pose proof (find_options_inv _ _ _ _ _ _ Hrun)
    as (_ & _ & _ & _ & _ & _ & Hlog).
  split.
  - intros statuses Hq. rewrite Hq in Hlog. exact Hlog.
  - intros Hq. rewrite Hq, app_nil_r in Hlog. exact Hlog.
Qed.

(** ** The further properties at work on the sample data *)

(** A helper that fails with "connection lost" gives a bad request with
    that message. *)
Lemma helper_failure_is_bad_request_witness :
  failing_helper "createdAt" (ListRequest.minimumDate query_pending)
    (ListRequest.maximumDate query_pending) sample_world
  = (Threw (StorageFailure "connection lost"), sample_world)
  ∧ find_with failing_helper broker_a query_pending sample_world
    = (Threw (HttpException "connection lost" BAD_REQUEST), sample_world).
Proof.
  assert (failing_helper "createdAt" (ListRequest.minimumDate query_pending)
            (ListRequest.maximumDate query_pending) sample_world
          = (Threw (StorageFailure "connection lost"), sample_world))
    as Hthrow by reflexivity.
  split; [exact Hthrow|].
  destruct (helper_failure_is_bad_request failing_helper broker_a
              query_pending sample_world sample_world _ Hthrow)
    as [_ Hfind].
  exact Hfind.
Defined.

(** A helper whose filter names [brokerId] with broker 2 makes the
    [where] composed for broker 1 ask for broker 2. *)
Lemma where_property_precedence_witness :
  forging_helper "createdAt" (ListRequest.minimumDate query_pending)
    (ListRequest.maximumDate query_pending) sample_world
  = (Returned {[ "brokerId" := Equals (VId 2) ]}, sample_world)
  ∧ ∃ opts w',
      find_options_with forging_helper broker_a query_pending sample_world
      = (Returned opts, w')
      ∧ find_where opts !! "brokerId" = Some (Equals (VId 2)).
Proof.
  assert (forging_helper "createdAt" (ListRequest.minimumDate query_pending)
            (ListRequest.maximumDate query_pending) sample_world
          = (Returned {[ "brokerId" := Equals (VId 2) ]}, sample_world))
    as Hdf by reflexivity.
  split; [exact Hdf|].
  destruct (where_property_precedence forging_helper broker_a query_pending
              sample_world sample_world _ Hdf)
    as (opts & w' & Hrun & _ & _ & Hforged & _).
  exists opts, w'. split; [exact Hrun|].
  apply Hforged. vm_compute. reflexivity.
Defined.

(** With the repository timing out, the pending listing of broker 1 fails
    with the timeout. *)
Lemma storage_failure_propagates_witness :
  find_options sample_message broker_a query_pending sample_world_down
  = (Returned options_pending, sample_world_down)
  ∧ faults sample_world_down = [Some "timeout"]
  ∧ find sample_message broker_a query_pending sample_world_down
    = (Threw (StorageFailure "timeout"), mkWorld sample_table [] []).
Proof.
  assert (find_options sample_message broker_a query_pending
            sample_world_down
          = (Returned options_pending, sample_world_down))
    as Hrun by (vm_compute; reflexivity).
  split; [exact Hrun|]. split; [reflexivity|].
  exact (storage_failure_propagates _ _ _ _ _ _ "timeout" [] Hrun eq_refl).
Defined.

(** The completed listing of broker 1 over the sample table returns one
    application. *)
Lemma find_returns_selected_rows_witness :
  find_options sample_message broker_a query_completed sample_world
  = (Returned options_completed, sample_world)
  ∧ storage_up 1 sample_world
  ∧ find sample_message broker_a query_completed sample_world
    = (Returned
         (ListResponse.mk true (query_rows options_completed sample_table)),
       sample_world)
  ∧ length (query_rows options_completed sample_table) = 1%nat.
Proof.
  assert (find_options sample_message broker_a query_completed sample_world
          = (Returned options_completed, sample_world))
    as Hrun by (vm_compute; reflexivity).
  assert (storage_up 1 sample_world) as Hup.
  { intros m Hm. simpl in Hm. apply elem_of_nil in Hm. exact Hm. }
  split; [exact Hrun|]. split; [exact Hup|].
  split; [|vm_compute; reflexivity].
  exact (find_returns_selected_rows _ _ _ _ _ _ Hrun Hup).
Defined.

(** The applications of that listing are rows of the sample table. *)
Lemma response_rows_come_from_table_witness :
  find sample_message broker_a query_completed sample_world
  = (Returned
       (ListResponse.mk true (query_rows options_completed sample_table)),
     sample_world)
  ∧ sublist (attributes <$> query_rows options_completed sample_table)
      (attributes <$> sample_table).
Proof.
  assert (find sample_message broker_a query_completed sample_world
          = (Returned
               (ListResponse.mk true
                  (query_rows options_completed sample_table)),
             sample_world)) as Hfind by (vm_compute; reflexivity).
  split; [exact Hfind|].
  destruct (response_rows_come_from_table _ _ _ _ _ _ Hfind) as [Hsub _].
  exact Hsub.
Defined.

(** The pending listing of broker 1 is the same over the sample table and
    over broker 1's three rows of it. *)
Lemma listing_ignores_other_brokers_witness :
  find_options sample_message broker_a query_pending sample_world
  = (Returned options_pending, sample_world)
  ∧ query_rows options_pending sample_table
    = query_rows options_pending (filter (owned_by 1) sample_table)
  ∧ length (filter (owned_by 1) sample_table) = 3%nat.
Proof.
  assert (find_options sample_message broker_a query_pending sample_world
          = (Returned options_pending, sample_world))
    as Hrun by (vm_compute; reflexivity).
  split; [exact Hrun|]. split; [|vm_compute; reflexivity].
  exact (listing_ignores_other_brokers _ _ _ _ _ _ sample_table Hrun).
Defined.

(** The pending listing of broker 1 keeps each of the rows that satisfy
    the [where]. *)
Lemma pending_listing_keeps_every_match_witness :
  find_options sample_message broker_a query_pending sample_world
  = (Returned options_pending, sample_world)
  ∧ Js.truthy_flag (ListRequest.completed query_pending) = false
  ∧ attributes <$> query_rows options_pending sample_table
    = attributes <$>
        filter (λ a, where_matches (find_where options_pending)
                       (attributes a) = true) sample_table.
Proof.
  assert (find_options sample_message broker_a query_pending sample_world
          = (Returned options_pending, sample_world))
    as Hrun by (vm_compute; reflexivity).
  split; [exact Hrun|]. split; [reflexivity|].
  exact (pending_listing_keeps_every_match _ _ _ _ _ _ sample_table Hrun
           eq_refl).
Defined.

(** With the repository timing out on the first call, nothing is stored. *)
Lemma average_failure_stores_nothing_witness :
  faults sample_world_down = [Some "timeout"]
  ∧ post (mean_loan_amount (Js.of_Z 0)) broker_a (payload 120000)
      sample_world_down
    = (Threw (StorageFailure "timeout"), mkWorld sample_table [] []).
Proof.
  split; [reflexivity|].
  exact (average_failure_stores_nothing (mean_loan_amount (Js.of_Z 0))
           broker_a (payload 120000) sample_world_down "timeout" []
           eq_refl).
Defined.

(** With the write rejected after the average was read, there is no
    response and the table is the sample table. *)
Lemma create_failure_gives_no_response_witness :
  faults sample_world_failing_write = [None; Some "disk full"]
  ∧ post (mean_loan_amount (Js.of_Z 0)) broker_a (payload 120000)
      sample_world_failing_write
    = (Threw (StorageFailure "disk full"), mkWorld sample_table [] []).
Proof.
  split; [reflexivity|].
  exact (create_failure_gives_no_response (mean_loan_amount (Js.of_Z 0))
           broker_a (payload 120000) sample_world_failing_write
           "disk full" [] eq_refl).
Defined.

(** On the sample world the submission returns and the table has five
    rows. *)
Lemma post_returns_and_stores_one_record_witness :
  storage_up 2 sample_world
  ∧ ∃ resp,
      post (mean_loan_amount (Js.of_Z 0)) broker_a (payload 120000)
        sample_world
      = (Returned resp, world_after 120000)
      ∧ PostResponse.success resp = true.
Proof.
  assert (storage_up 2 sample_world) as Hup.
  { intros m Hm. simpl in Hm. apply elem_of_nil in Hm. exact Hm. }
  split; [exact Hup|].
  exact (post_returns_and_stores_one_record (mean_loan_amount (Js.of_Z 0))
           broker_a (payload 120000) sample_world Hup).
Defined.

(** On an empty table with the undefined sentinel, 5000 is echoed and
    reported at average. *)
Lemma unordered_amount_is_reported_at_average_witness :
  post (mean_loan_amount Js.NaN) broker_a (payload 5000) (mkWorld [] [] [])
  = (Returned (PostResponse.mk true (Some (Js.of_Z 5000))
                 "Loan amount is at average"),
     mkWorld [stored_row 5000] [] [])
  ∧ ¬ Js.comparable (Payload.loanAmount (payload 5000))
        (mean_loan_amount Js.NaN (table (mkWorld [] [] [])))
  ∧ PostResponse.mk true (Some (Js.of_Z 5000)) "Loan amount is at average"
    = PostResponse.mk true (Some (Payload.loanAmount (payload 5000)))
        "Loan amount is at average".
Proof.
  assert (post (mean_loan_amount Js.NaN) broker_a (payload 5000)
            (mkWorld [] [] [])
          = (Returned (PostResponse.mk true (Some (Js.of_Z 5000))
                         "Loan amount is at average"),
             mkWorld [stored_row 5000] [] []))
    as Hrun by (vm_compute; reflexivity).
  assert (¬ Js.comparable (Payload.loanAmount (payload 5000))
              (mean_loan_amount Js.NaN (table (mkWorld [] [] []))))
    as Hun.
  { intros [c Hc]. vm_compute in Hc. discriminate Hc. }
  split; [exact Hrun|]. split; [exact Hun|].
  exact (unordered_amount_is_reported_at_average _ _ _ _ _ _ Hrun Hun).
Defined.

(** After 120000 is stored the five records average 104000, so a second
    submission of 104000 is at average. *)
Lemma second_submission_sees_first_witness :
  post (mean_loan_amount (Js.of_Z 0)) broker_a (payload 120000) sample_world
  = (Returned (PostResponse.mk true (Some (Js.of_Z 120000))
                 "Loan amount is above average"),
     world_after 120000)
  ∧ post (mean_loan_amount (Js.of_Z 0)) broker_b (payload 104000)
      (world_after 120000)
    = (Returned (PostResponse.mk true None "Loan amount is at average"),
       mkWorld
         (sample_table ++
          [stored_row 120000;
           mkApplication (submitted_values broker_b (payload 104000)) None])
         [] [])
  ∧ table
      (mkWorld
         (sample_table ++
          [stored_row 120000;
           mkApplication (submitted_values broker_b (payload 104000)) None])
         [] [])
    = (table sample_world ++
       [mkApplication (submitted_values broker_a (payload 120000)) None;
        mkApplication (submitted_values broker_b (payload 104000)) None])%list.
Proof.
  assert (post (mean_loan_amount (Js.of_Z 0)) broker_a (payload 120000)
            sample_world
          = (Returned (PostResponse.mk true (Some (Js.of_Z 120000))
                         "Loan amount is above average"),
             world_after 120000)) as H1 by (vm_compute; reflexivity).
  assert (post (mean_loan_amount (Js.of_Z 0)) broker_b (payload 104000)
            (world_after 120000)
          = (Returned (PostResponse.mk true None "Loan amount is at average"),
             mkWorld
               (sample_table ++
                [stored_row 120000;
                 mkApplication (submitted_values broker_b (payload 104000))
                   None])
               [] [])) as H2 by (vm_compute; reflexivity).
  split; [exact H1|]. split; [exact H2|].
  destruct (second_submission_sees_first _ _ _ _ _ _ _ _ _ _ H1 H2)
    as [Htable _].
  exact Htable.
Defined.

(** After broker 1 submits 120000, their pending listing is the earlier
    one followed by the new record. *)
Lemma own_submission_is_listed_witness :
  post (mean_loan_amount (Js.of_Z 0)) broker_a (payload 120000) sample_world
  = (Returned (PostResponse.mk true (Some (Js.of_Z 120000))
                 "Loan amount is above average"),
     world_after 120000)
  ∧ ListRequest.minimumDate query_pending = None
  ∧ ListRequest.maximumDate query_pending = None
  ∧ Js.truthy_flag (ListRequest.completed query_pending) = false
  ∧ find sample_message broker_a query_pending (world_after 120000)
    = (Returned
         (ListResponse.mk true
            (query_rows options_pending (table (world_after 120000)))),
       world_after 120000)
  ∧ ∃ opts w',
      find_options sample_message broker_a query_pending sample_world
      = (Returned opts, w')
      ∧ query_rows options_pending (table (world_after 120000))
        = (query_rows opts (table sample_world)
           ++ [mkApplication (submitted_values broker_a (payload 120000))
                 None])%list.
Proof.
  assert (post (mean_loan_amount (Js.of_Z 0)) broker_a (payload 120000)
            sample_world
          = (Returned (PostResponse.mk true (Some (Js.of_Z 120000))
                         "Loan amount is above average"),
             world_after 120000)) as Hpost by (vm_compute; reflexivity).
  assert (find sample_message broker_a query_pending (world_after 120000)
          = (Returned
               (ListResponse.mk true
                  (query_rows options_pending (table (world_after 120000)))),
             world_after 120000)) as Hfind by (vm_compute; reflexivity).
  split; [exact Hpost|]. do 3 (split; [reflexivity|]).
  split; [exact Hfind|].
  assert (∀ statuses, ListRequest.status query_pending = Some statuses →
            Submitted ∈ statuses) as Hstatus by discriminate.
  exact (own_submission_is_listed _ _ _ _ query_pending _ _ _ _ _ Hpost
           eq_refl eq_refl eq_refl Hstatus Hfind).
Defined.

(** After the same submission the completed listing of broker 1 is as
    before. *)
Lemma fresh_submission_not_in_completed_listing_witness :
  post (mean_loan_amount (Js.of_Z 0)) broker_a (payload 120000) sample_world
  = (Returned (PostResponse.mk true (Some (Js.of_Z 120000))
                 "Loan amount is above average"),
     world_after 120000)
  ∧ Js.truthy_flag (ListRequest.completed query_completed) = true
  ∧ find sample_message broker_a query_completed (world_after 120000)
    = (Returned
         (ListResponse.mk true
            (query_rows options_completed (table (world_after 120000)))),
       world_after 120000)
  ∧ ∃ opts w',
      find_options sample_message broker_a query_completed sample_world
      = (Returned opts, w')
      ∧ query_rows options_completed (table (world_after 120000))
        = query_rows opts (table sample_world).
Proof.
  assert (post (mean_loan_amount (Js.of_Z 0)) broker_a (payload 120000)
            sample_world
          = (Returned (PostResponse.mk true (Some (Js.of_Z 120000))
                         "Loan amount is above average"),
             world_after 120000)) as Hpost by (vm_compute; reflexivity).
  assert (find sample_message broker_a query_completed (world_after 120000)
          = (Returned
               (ListResponse.mk true
                  (query_rows options_completed
                     (table (world_after 120000)))),
             world_after 120000)) as Hfind by (vm_compute; reflexivity).
  split; [exact Hpost|]. split; [reflexivity|]. split; [exact Hfind|].
  exact (fresh_submission_not_in_completed_listing _ _ _ _ _ query_completed
           _ _ _ _ _ Hpost eq_refl Hfind).
Defined.

(** After broker 2 submits 120000, the pending listing of broker 1 is as
    before. *)
Lemma other_broker_submission_is_invisible_witness :
  id broker_b ≠ id broker_a
  ∧ post (mean_loan_amount (Js.of_Z 0)) broker_b (payload 120000)
      sample_world
    = (Returned (PostResponse.mk true (Some (Js.of_Z 120000))
                   "Loan amount is above average"),
       mkWorld
         (sample_table
          ++ [mkApplication (submitted_values broker_b (payload 120000))
                None])
         [] [])
  ∧ ∃ opts w',
      find_options sample_message broker_a query_pending sample_world
      = (Returned opts, w')
      ∧ query_rows options_pending
          (sample_table
           ++ [mkApplication (submitted_values broker_b (payload 120000))
                 None])
        = query_rows opts (table sample_world).
Proof.
  assert (post (mean_loan_amount (Js.of_Z 0)) broker_b (payload 120000)
            sample_world
          = (Returned (PostResponse.mk true (Some (Js.of_Z 120000))
                         "Loan amount is above average"),
             mkWorld
               (sample_table
                ++ [mkApplication
                      (submitted_values broker_b (payload 120000)) None])
               [] [])) as Hpost by (vm_compute; reflexivity).
  assert (find sample_message broker_a query_pending
            (mkWorld
               (sample_table
                ++ [mkApplication
                      (submitted_values broker_b (payload 120000)) None])
               [] [])
          = (Returned
               (ListResponse.mk true
                  (query_rows options_pending
                     (sample_table
                      ++ [mkApplication
                            (submitted_values broker_b (payload 120000))
                            None]))),
             mkWorld
               (sample_table
                ++ [mkApplication
                      (submitted_values broker_b (payload 120000)) None])
               [] [])) as Hfind by (vm_compute; reflexivity).
  assert (id broker_b ≠ id broker_a) as Hne by discriminate.
  split; [exact Hne|]. split; [exact Hpost|].
  exact (other_broker_submission_is_invisible _ _ _ _ _ query_pending
           _ _ _ _ _ Hne Hpost Hfind).
Defined.

(** With [Submitted] and [Approved] asked for, the listing of broker 1
    holds only such applications. *)
Lemma listed_status_is_requested_witness :
  find sample_message broker_a query_two_statuses sample_world
  = (Returned
       (ListResponse.mk true (query_rows options_two_statuses sample_table)),
     mkWorld sample_table [find_where options_two_statuses] [])
  ∧ ListRequest.status query_two_statuses = Some [Submitted; Approved]
  ∧ ∀ a, a ∈ query_rows options_two_statuses sample_table →
      ∃ s, s ∈ [Submitted; Approved]
           ∧ attributes a !! "status" = Some (VApplicationStatus s).
Proof.
  assert (find sample_message broker_a query_two_statuses sample_world
          = (Returned
               (ListResponse.mk true
                  (query_rows options_two_statuses sample_table)),
             mkWorld sample_table [find_where options_two_statuses] []))
    as Hfind by (vm_compute; reflexivity).
  split; [exact Hfind|]. split; [reflexivity|].
  exact (listed_status_is_requested _ _ _ _ _ _ _ Hfind eq_refl).
Defined.

(** The completed listing of broker 1 lies within their pending listing. *)
Lemma completed_listing_within_pending_listing_witness :
  find_options sample_message broker_a
    (with_completed (Some true) query_pending) sample_world
  = (Returned options_completed, sample_world)
  ∧ find_options sample_message broker_a
      (with_completed None query_pending) sample_world
    = (Returned options_pending, sample_world)
  ∧ sublist (attributes <$> query_rows options_completed sample_table)
      (attributes <$> query_rows options_pending sample_table).
Proof.
  assert (find_options sample_message broker_a
            (with_completed (Some true) query_pending) sample_world
          = (Returned options_completed, sample_world))
    as Hc by (vm_compute; reflexivity).
  assert (find_options sample_message broker_a
            (with_completed None query_pending) sample_world
          = (Returned options_pending, sample_world))
    as Hp by (vm_compute; reflexivity).
  split; [exact Hc|]. split; [exact Hp|].
  exact (completed_listing_within_pending_listing _ _ _ _ _ _ _ _
           sample_table Hc Hp).
Defined.

(** With two statuses asked for, the console gains the composed
    [where]. *)
Lemma where_logged_iff_status_supplied_witness :
  find_options sample_message broker_a query_two_statuses sample_world
  = (Returned options_two_statuses,
     mkWorld sample_table [find_where options_two_statuses] [])
  ∧ console (mkWorld sample_table [find_where options_two_statuses] [])
    = (console sample_world ++ [find_where options_two_statuses])%list.
Proof.
  assert (find_options sample_message broker_a query_two_statuses
            sample_world
          = (Returned options_two_statuses,
             mkWorld sample_table [find_where options_two_statuses] []))
    as Hrun by (vm_compute; reflexivity).
  split; [exact Hrun|].
  destruct (where_logged_iff_status_supplied _ _ _ _ _ _ Hrun) as [Hlog _].
  exact (Hlog [Submitted; Approved] eq_refl).
Defined.
